(** * Paperwork frontend configuration: a verified model

    Shallow embedding of [src/paperwork/frontend/util/config.py]: the
    composite settings ([_ScanTimes], [_PaperworkScannerCalibration],
    [_PaperworkDate], [_PaperworkSize], [_PaperworkRecent]) and the device
    initialiser ([_get_scanner], [get_scanner]).

    Methods that mutate [self] become functions from the object to the
    object; methods that mutate the configuration store return the new
    store; a raised exception is a value of [Py.exn]. *)

From Stdlib Require Import ZArith NArith Ascii String List Lia.
From Stdlib Require Floats.PrimFloat.
From stdpp Require Import base option list gmap strings pretty.

(** ** The Python values and builtins the module relies on *)

Module Py.

(** Text.  A Python [str] is represented by its UTF-8 encoding, a Rocq
    [string]; [bytes] are Rocq strings as well.  Equality, concatenation
    and containment of [str] values are those of the encodings. *)
Abbreviation str := string.
Abbreviation bytes := string.

(** The exception classes that occur in the module.  [BinasciiError] and
    [UnicodeDecodeError] are subclasses of [ValueError] in Python; no
    handler of the module catches any of the three. *)
Inductive exn : Type :=
| NoSectionError (section : str)
| NoOptionError (opt section : str)
| ValueError (msg : str)
| KeyError (key : str)
| BinasciiError (msg : str)
| UnicodeDecodeError
| PyinsaneException (msg : str).

Inductive result (A : Type) : Type :=
| Ok (a : A)
| Raise (e : exn).
Arguments Ok {A} a.
Arguments Raise {A} e.

#[global] Instance result_ret : MRet result := @Ok.
#[global] Instance result_bind : MBind result := λ A B k r,
  match r with Ok a => k a | Raise e => Raise e end.

#[global] Instance exn_eq_dec : EqDecision exn.
Proof. solve_decision. Defined.

Definition code (c : ascii) : N := N_of_ascii c.
Definition between (lo hi n : N) : bool := ((lo <=? n) && (n <=? hi))%N.

(** [Py_UNICODE_ISSPACE], on the UTF-8 encoding of a character.  One byte:
    U+0009..U+000D, U+001C..U+0020. *)
Definition is_space1 (c0 : ascii) : bool :=
  between 9 13 (code c0) || between 28 32 (code c0).

(** Two bytes: U+0085 (C2 85) and U+00A0 (C2 A0). *)
Definition is_space2 (c0 c1 : ascii) : bool :=
  (code c0 =? 0xC2)%N && ((code c1 =? 0x85)%N || (code c1 =? 0xA0)%N).

(** Three bytes: U+1680 (E1 9A 80), U+2000..U+200A (E2 80 80..8A),
    U+2028, U+2029, U+202F (E2 80 A8/A9/AF), U+205F (E2 81 9F) and
    U+3000 (E3 80 80). *)
Definition is_space3 (c0 c1 c2 : ascii) : bool :=
  ((code c0 =? 0xE1)%N && (code c1 =? 0x9A)%N && (code c2 =? 0x80)%N)
  || ((code c0 =? 0xE2)%N && (code c1 =? 0x80)%N
      && (between 0x80 0x8A (code c2) || (code c2 =? 0xA8)%N
          || (code c2 =? 0xA9)%N || (code c2 =? 0xAF)%N))
  || ((code c0 =? 0xE2)%N && (code c1 =? 0x81)%N && (code c2 =? 0x9F)%N)
  || ((code c0 =? 0xE3)%N && (code c1 =? 0x80)%N && (code c2 =? 0x80)%N).

(** Number of bytes of the whitespace character a byte sequence starts
    with, 0 when it starts with none.  With [back] the sequence is read
    from its end: [s] is then the reversed text. *)
Definition ws_head (back : bool) (s : list ascii) : nat :=
  match s with
  | c0 :: r0 =>
      if is_space1 c0 then 1 else
      match r0 with
      | c1 :: r1 =>
          if (if back then is_space2 c1 c0 else is_space2 c0 c1) then 2 else
          match r1 with
          | c2 :: _ =>
              if (if back then is_space3 c2 c1 c0 else is_space3 c0 c1 c2)
              then 3 else 0
          | [] => 0
          end
      | [] => 0
      end
  | [] => 0
  end.

(** Skip whitespace characters at the head of [s]. *)
Fixpoint drop_spaces (back : bool) (s : list ascii) : list ascii :=
  match s with
  | c0 :: r0 =>
      if is_space1 c0 then drop_spaces back r0 else
      match r0 with
      | c1 :: r1 =>
          if (if back then is_space2 c1 c0 else is_space2 c0 c1)
          then drop_spaces back r1 else
          match r1 with
          | c2 :: r2 =>
              if (if back then is_space3 c2 c1 c0 else is_space3 c0 c1 c2)
              then drop_spaces back r2 else s
          | [] => s
          end
      | [] => s
      end
  | [] => s
  end.

Definition lstrip_chars (s : list ascii) : list ascii := drop_spaces false s.
Definition rstrip_chars (s : list ascii) : list ascii :=
  reverse (drop_spaces true (reverse s)).

(** [str.strip()]: the index of the first non-space character is found
    first, then the text is cut after its last non-space character. *)
Definition strip (s : str) : str :=
  string_of_list_ascii (rstrip_chars (lstrip_chars (list_ascii_of_string s))).

(** A text made of whitespace characters only (the empty text included). *)
Fixpoint all_spaces (s : list ascii) : bool :=
  match s with
  | [] => true
  | c0 :: r0 =>
      if is_space1 c0 then all_spaces r0 else
      match r0 with
      | c1 :: r1 =>
          if is_space2 c0 c1 then all_spaces r1 else
          match r1 with
          | c2 :: r2 => is_space3 c0 c1 c2 && all_spaces r2
          | [] => false
          end
      | [] => false
      end
  end.
Definition whitespace_only (s : str) : bool :=
  all_spaces (list_ascii_of_string s).


(** *** Characters: the code points of a text *)

Definition is_cont (c : ascii) : bool := between 0x80 0xBF (code c).

(** The six payload bits of a continuation byte. *)
Definition cont_bits (c : ascii) : N := (code c - 0x80)%N.

(** The characters of a [str], as Unicode code points, read from its UTF-8
    representation.  [None] for a byte sequence that is not well-formed
    UTF-8 (a stray or missing continuation byte, an overlong form, a
    surrogate, something above U+10FFFF): it represents no [str]. *)
Fixpoint code_points (s : list ascii) : option (list N) :=
  match s with
  | [] => Some []
  | c0 :: r0 =>
      let b0 := code c0 in
      if (b0 <? 0x80)%N then cons b0 <$> code_points r0
      else if (b0 <? 0xC2)%N then None
      else if (b0 <? 0xE0)%N then
        match r0 with
        | c1 :: r1 =>
            if is_cont c1
            then cons ((b0 - 0xC0) * 64 + cont_bits c1)%N <$> code_points r1
            else None
        | _ => None
        end
      else if (b0 <? 0xF0)%N then
        match r0 with
        | c1 :: c2 :: r2 =>
            if between (if (b0 =? 0xE0)%N then 0xA0 else 0x80)
                       (if (b0 =? 0xED)%N then 0x9F else 0xBF) (code c1)
               && is_cont c2
            then cons (((b0 - 0xE0) * 64 + cont_bits c1) * 64
                       + cont_bits c2)%N <$> code_points r2
            else None
        | _ => None
        end
      else if (b0 <? 0xF5)%N then
        match r0 with
        | c1 :: c2 :: c3 :: r3 =>
            if between (if (b0 =? 0xF0)%N then 0x90 else 0x80)
                       (if (b0 =? 0xF4)%N then 0x8F else 0xBF) (code c1)
               && is_cont c2 && is_cont c3
            then cons ((((b0 - 0xF0) * 64 + cont_bits c1) * 64
                        + cont_bits c2) * 64 + cont_bits c3)%N
                   <$> code_points r3
            else None
        | _ => None
        end
      else None
  end.

(** [Py_UNICODE_ISSPACE] of a code point: the characters [str.isspace]
    accepts. *)
Definition is_space (ch : N) : bool :=
  between 0x09 0x0D ch || between 0x1C 0x20 ch
  || (ch =? 0x85)%N || (ch =? 0xA0)%N || (ch =? 0x1680)%N
  || between 0x2000 0x200A ch || (ch =? 0x2028)%N || (ch =? 0x2029)%N
  || (ch =? 0x202F)%N || (ch =? 0x205F)%N || (ch =? 0x3000)%N.

(** The digit zero of each of the 66 sets of decimal digits (general
    category Nd) of Unicode 14.0, the version of CPython 3.11: the ASCII
    digits, the Arabic-Indic digits, ...  The ten digits of a set have
    consecutive code points. *)
Definition decimal_zeros : list N :=
  [0x30; 0x660; 0x6F0; 0x7C0; 0x966; 0x9E6; 0xA66; 0xAE6; 0xB66; 0xBE6;
   0xC66; 0xCE6; 0xD66; 0xDE6; 0xE50; 0xED0; 0xF20; 0x1040; 0x1090; 0x17E0;
   0x1810; 0x1946; 0x19D0; 0x1A80; 0x1A90; 0x1B50; 0x1BB0; 0x1C40; 0x1C50;
   0xA620; 0xA8D0; 0xA900; 0xA9D0; 0xA9F0; 0xAA50; 0xABF0; 0xFF10; 0x104A0;
   0x10D30; 0x11066; 0x110F0; 0x11136; 0x111D0; 0x112F0; 0x11450; 0x114D0;
   0x11650; 0x116C0; 0x11730; 0x118E0; 0x11950; 0x11C50; 0x11D50; 0x11DA0;
   0x16A60; 0x16AC0; 0x16B50; 0x1D7CE; 0x1D7D8; 0x1D7E2; 0x1D7EC; 0x1D7F6;
   0x1E140; 0x1E2F0; 0x1E950; 0x1FBF0]%N.

(** [Py_UNICODE_TODECIMAL]: the value of a decimal digit of any script. *)
Definition to_decimal (ch : N) : option N :=
  z ← List.find (λ z, between z (z + 9) ch) decimal_zeros; Some (ch - z)%N.

(** *** Integers and their decimal text *)

(** [str(n)] for a Python [int]. *)
Definition str_int (n : Z) : str := pretty n.

Definition digit_value (c : ascii) : option N :=
  if between 48 57 (code c) then Some (code c - 48)%N else None.

Definition digit_char (c : ascii) : Prop := is_Some (digit_value c).

(** A character below U+0080 that is not whitespace. *)
Definition plain (c : ascii) : Prop := is_space1 c = false ∧ (code c < 128)%N.

(** The loop of [_PyUnicode_TransformDecimalAndSpaceToASCII]: a character
    below U+007F is kept, another whitespace character becomes a space, a
    decimal digit becomes its ASCII digit, and at any other character the
    buffer ends with a question mark. *)
Fixpoint transform_loop (s : list N) : list ascii :=
  match s with
  | [] => []
  | ch :: r =>
      if (ch <? 127)%N then ascii_of_N ch :: transform_loop r
      else if is_space ch then " "%char :: transform_loop r
      else
        match to_decimal ch with
        | Some decimal => ascii_of_N (48 + decimal) :: transform_loop r
        | None => ["?"%char]
        end
  end.

(** [_PyUnicode_TransformDecimalAndSpaceToASCII]: a text of ASCII
    characters is returned as it is. *)
Definition transform_decimal_and_space (s : list N) : list ascii :=
  if forallb (λ ch, ch <? 128)%N s then ascii_of_N <$> s
  else transform_loop s.

(** [Py_ISSPACE]: space, tab, newline, vertical tab, form feed, return. *)
Definition Py_ISSPACE (c : ascii) : bool :=
  between 9 13 (code c) || (code c =? 32)%N.

Fixpoint skip_spaces (s : list ascii) : list ascii :=
  match s with
  | c :: r => if Py_ISSPACE c then skip_spaces r else s
  | [] => []
  end.

(** The digits of an integer literal, with single underscores allowed
    between two digits.  [acc] is the value read so far; [after_digit]
    tells whether the previous character was a digit. *)
Fixpoint int_digits (s : list ascii) (acc : N) (after_digit : bool) : option N :=
  match s with
  | [] => if after_digit then Some acc else None
  | c :: r =>
      match digit_value c with
      | Some d => int_digits r (10 * acc + d) true
      | None =>
          if (code c =? 95)%N && after_digit then int_digits r acc false
          else None
      end
  end.

Definition int_literal (s : list ascii) : option Z :=
  match s with
  | c :: r =>
      if (code c =? 45)%N then               (* "-" *)
        n ← int_digits r 0 false; Some (- Z.of_N n)%Z
      else if (code c =? 43)%N then          (* "+" *)
        n ← int_digits r 0 false; Some (Z.of_N n)
      else n ← int_digits s 0 false; Some (Z.of_N n)
  | [] => None
  end.

(** [PyLong_FromString(buffer, &end, 10)] with [end] at the end of the
    buffer: whitespace, an optional sign, digits with single underscores
    between them, whitespace, and nothing else. *)
Definition long_from_string (buffer : list ascii) : option Z :=
  int_literal (reverse (skip_spaces (reverse (skip_spaces buffer)))).

(** [int(s)] for a [str], in base 10 ([PyLong_FromUnicodeObject]).  The
    whitespace ignored around the number is that of [Py_ISSPACE] and the
    whitespace above U+007F; the digits are the decimal digits of every
    script.  The interpreter's limit on the number of digits
    ([sys.set_int_max_str_digits]) is not modelled. *)
Definition int (s : str) : result Z :=
  match code_points (list_ascii_of_string s)
        ≫= λ chars, long_from_string (transform_decimal_and_space chars) with
  | Some n => Ok n
  | None => Raise (ValueError "invalid literal for int() with base 10")
  end.

(** *** [bytes.strip], UTF-8 and base64 *)

(** The whitespace of [bytes.strip()]: space, tab, newline, return,
    vertical tab, form feed. *)
Definition is_bspace (c : ascii) : bool :=
  between 9 13 (code c) || (code c =? 32)%N.

Fixpoint drop_bspaces (s : list ascii) : list ascii :=
  match s with
  | c :: r => if is_bspace c then drop_bspaces r else s
  | [] => []
  end.

Definition bytes_strip_chars (s : list ascii) : list ascii :=
  reverse (drop_bspaces (reverse (drop_bspaces s))).

(** [b.strip()] for [bytes] *)
Definition bytes_strip (b : bytes) : bytes :=
  string_of_list_ascii (bytes_strip_chars (list_ascii_of_string b)).

(** [s.encode("utf-8")]: a [str] is represented by its encoding. *)
Definition encode_utf8 (s : str) : bytes := s.

(** Well-formed UTF-8: no stray or missing continuation byte, no overlong
    form, no surrogate, nothing above U+10FFFF. *)
Fixpoint utf8_valid (s : list ascii) : bool :=
  match s with
  | [] => true
  | c0 :: r0 =>
      let b0 := code c0 in
      if (b0 <? 0x80)%N then utf8_valid r0
      else if (b0 <? 0xC2)%N then false
      else if (b0 <? 0xE0)%N then
        match r0 with
        | c1 :: r1 => is_cont c1 && utf8_valid r1
        | _ => false
        end
      else if (b0 <? 0xF0)%N then
        match r0 with
        | c1 :: c2 :: r2 =>
            between (if (b0 =? 0xE0)%N then 0xA0 else 0x80)
                    (if (b0 =? 0xED)%N then 0x9F else 0xBF) (code c1)
            && is_cont c2 && utf8_valid r2
        | _ => false
        end
      else if (b0 <? 0xF5)%N then
        match r0 with
        | c1 :: c2 :: c3 :: r3 =>
            between (if (b0 =? 0xF0)%N then 0x90 else 0x80)
                    (if (b0 =? 0xF4)%N then 0x8F else 0xBF) (code c1)
            && is_cont c2 && is_cont c3 && utf8_valid r3
        | _ => false
        end
      else false
  end.

(** A [str] value of the model that stands for a Python text. *)
Definition well_formed (s : str) : Prop :=
  utf8_valid (list_ascii_of_string s) = true.

(** [b.decode("utf-8")] *)
Definition decode_utf8 (b : bytes) : result str :=
  if utf8_valid (list_ascii_of_string b) then Ok b
  else Raise UnicodeDecodeError.

(** The base64 alphabet: [A-Z], [a-z], [0-9], [+], [/]. *)
Definition table_b2a (v : N) : ascii :=
  if (v <? 26)%N then ascii_of_N (65 + v)
  else if (v <? 52)%N then ascii_of_N (71 + v)
  else if (v <? 62)%N then ascii_of_N (v - 4)
  else if (v =? 62)%N then "+"%char
  else "/"%char.

Definition table_a2b (c : ascii) : option N :=
  let n := code c in
  if between 65 90 n then Some (n - 65)%N
  else if between 97 122 n then Some (n - 71)%N
  else if between 48 57 n then Some (n + 4)%N
  else if (n =? 43)%N then Some 62%N
  else if (n =? 47)%N then Some 63%N
  else None.

Definition BASE64_PAD : ascii := "="%char.

(** The characters of [binascii.b2a_base64(data, newline=False)]: three
    bytes give four characters, a last group of one or two bytes is
    padded. *)
Fixpoint b2a_groups (data : list ascii) : list ascii :=
  match data with
  | a :: r0 =>
      match r0 with
      | b :: r1 =>
          match r1 with
          | c :: r2 =>
              table_b2a (N.shiftr (code a) 2)
              :: table_b2a (N.lor (N.shiftl (N.land (code a) 3) 4)
                                  (N.shiftr (code b) 4))
              :: table_b2a (N.lor (N.shiftl (N.land (code b) 15) 2)
                                  (N.shiftr (code c) 6))
              :: table_b2a (N.land (code c) 63)
              :: b2a_groups r2
          | [] =>
              [ table_b2a (N.shiftr (code a) 2);
                table_b2a (N.lor (N.shiftl (N.land (code a) 3) 4)
                                 (N.shiftr (code b) 4));
                table_b2a (N.shiftl (N.land (code b) 15) 2);
                BASE64_PAD ]
          end
      | [] =>
          [ table_b2a (N.shiftr (code a) 2);
            table_b2a (N.shiftl (N.land (code a) 3) 4);
            BASE64_PAD; BASE64_PAD ]
      end
  | [] => []
  end.

(** [binascii.b2a_base64(data)]: the characters and a newline. *)
Definition b2a_base64 (data : list ascii) : list ascii :=
  b2a_groups data ++ ["010"%char].

Definition MAXBINSIZE : nat := 57.

(** [base64.encodebytes(s)]: [b2a_base64] of each chunk
    [s[i : i + MAXBINSIZE]] for [i] in [range(0, len(s), MAXBINSIZE)]. *)
Definition encodebytes_chars (s : list ascii) : list ascii :=
  mjoin ((λ k, b2a_base64 (take MAXBINSIZE (drop (MAXBINSIZE * k) s)))
         <$> seq 0 ((length s + (MAXBINSIZE - 1)) `div` MAXBINSIZE)).

Definition encodebytes (s : bytes) : bytes :=
  string_of_list_ascii (encodebytes_chars (list_ascii_of_string s)).

(** The loop of [binascii.a2b_base64] (not strict): characters outside
    the alphabet are skipped, a complete padding ends the data. *)
Fixpoint a2b_loop (s : list ascii) (quad_pos : nat) (leftchar : N)
    (pads : nat) (out : list ascii) : result (list ascii) :=
  match s with
  | [] =>
      match quad_pos with
      | 0 => Ok out
      | 1 => Raise (BinasciiError "Invalid base64-encoded string")
      | _ => Raise (BinasciiError "Incorrect padding")
      end
  | c :: s =>
      if (code c =? code BASE64_PAD)%N then
        if (2 <=? quad_pos) && (4 <=? quad_pos + S pads) then Ok out
        else a2b_loop s quad_pos leftchar
               (if 2 <=? quad_pos then S pads else pads) out
      else
        match table_a2b c with
        | None => a2b_loop s quad_pos leftchar pads out
        | Some this_ch =>
            match quad_pos with
            | 0 => a2b_loop s 1 this_ch 0 out
            | 1 =>
                a2b_loop s 2 (N.land this_ch 0x0f) 0
                  (out ++ [ascii_of_N (N.lor (N.shiftl leftchar 2)
                                             (N.shiftr this_ch 4))])
            | 2 =>
                a2b_loop s 3 (N.land this_ch 0x03) 0
                  (out ++ [ascii_of_N (N.lor (N.shiftl leftchar 4)
                                             (N.shiftr this_ch 2))])
            | _ =>
                a2b_loop s 0 0 0
                  (out ++ [ascii_of_N (N.lor (N.shiftl leftchar 6) this_ch)])
            end
        end
  end.

(** A character that is neither the padding nor in the alphabet. *)
Definition skipped (c : ascii) : Prop :=
  (code c =? code BASE64_PAD)%N = false ∧ table_a2b c = None.

(** [base64.decodebytes(s)], that is [binascii.a2b_base64(s)] *)
Definition decodebytes (s : bytes) : result bytes :=
  out ← a2b_loop (list_ascii_of_string s) 0 0 0 [];
  mret (string_of_list_ascii out).

End Py.

(** ** The persisted store *)

Module Store.
Import Py.

(** Modelled from the spec: the persisted store collaborator, the
    [configparser] object owned by [paperwork_backend.config.PaperworkConfig],
    whose code is not part of this repository.  Spec §6: "section/key
    string-valued get/set operations".  A store maps a section to its
    options and an option to its string value. *)
Abbreviation t := (gmap str (gmap str str)).

(** The value stored under [(section, opt)], if any. *)
Definition lookup (config : t) (section opt : str) : option str :=
  config !! section ≫= λ opts, opts !! opt.

(** Modelled from the spec: [config.get(section, option)] of the store
    collaborator.  Spec §6: it "raises a 'missing section' or 'missing
    option' condition distinguishably when absent". *)
Definition get (config : t) (section opt : str) : result str :=
  match config !! section with
  | None => Raise (NoSectionError section)
  | Some opts =>
      match opts !! opt with
      | None => Raise (NoOptionError opt section)
      | Some v => Ok v
      end
  end.

(** Modelled from the spec: [config.set(section, option, value)] of the
    store collaborator, the write operation of spec §6.  The spec gives
    it no failure: a write to a section the store does not hold yet
    creates the section. *)
Definition set (config : t) (section opt value : str) : t :=
  <[section := <[opt := value]> (default ∅ (config !! section))]> config.

(** [except (configparser.NoOptionError, configparser.NoSectionError)] *)
Definition is_missing (e : exn) : bool :=
  match e with
  | NoOptionError _ _ | NoSectionError _ => true
  | _ => false
  end.

End Store.

(** ** [_PaperworkRecent]: the Recent List *)

Module _PaperworkRecent.
Import Py.

(** The object's attributes.  [max_length] is the capacity handed to the
    constructor (3 and 10 in [load_config]); [value] is the Python list. *)
Record t : Type := mk {
  section : str;
  base_token : str;
  max_length : nat;
  value : list str;
}.

(** [__init__(self, section, base_token, max_length=10)] *)
Definition init (section base_token : str) (max_length : nat) : t :=
  mk section base_token max_length [].

Definition set_value (self : t) (l : list str) : t :=
  mk self.(section) self.(base_token) self.(max_length) l.

(** [push(self, value)] *)
Definition push (self : t) (v : str) : t :=
  let v := strip v in
  if decide (v = "") then self
  else if decide (v ∈ self.(value)) then self   (* duplicates are useless *)
  else
    let l := self.(value) ++ [v] in              (* self.value.append(value) *)
    if decide (self.(max_length) < length l)    (* len(self.value) > self.max_length *)
    then set_value self (drop 1 l)               (* self.value.pop(0) *)
    else set_value self l.

(** A run of pushes, in order. *)
Definition push_all (self : t) (vs : list str) : t :=
  foldl push self vs.

(** The key of the entry at position [idx]:
    [self.base_token + "_" + str(idx)]. *)
Definition key (self : t) (idx : nat) : str :=
  self.(base_token) +:+ "_" +:+ str_int (Z.of_nat idx).

(** One turn of the [while True] loop of [load], after [config.get]
    returned [v]: the decoded text, or the exception raised. *)
Definition decode_entry (v : str) : result str :=
  let v := encode_utf8 v in
  v ← decodebytes v;
  decode_utf8 v.

(** The [try] block of [load] from index [idx] on: the object when the
    block is left and the exception that escapes the [except] clause, if
    any.  [None] when [fuel] turns of the loop do not reach its end. *)
Fixpoint load_loop (fuel : nat) (self : t) (config : Store.t) (idx : nat)
    : option (t * option exn) :=
  match fuel with
  | 0 => None
  | S fuel =>
      match Store.get config self.(section) (key self idx) ≫= decode_entry with
      | Ok v => load_loop fuel (push self v) config (S idx)
      | Raise e =>
          if Store.is_missing e then Some (self, None)
          else Some (self, Some e)
      end
  end.

(** The loop reads one key of the section per turn, at increasing
    indices: it ends within one turn more than the section has options. *)
Definition load_fuel (self : t) (config : Store.t) : nat :=
  S (size (default ∅ (config !! self.(section)))).

(** [load(self, config)] *)
Definition load (self : t) (config : Store.t) : t * option exn :=
  let self := set_value self [] in
  default (self, None) (load_loop (load_fuel self config) self config 0).

(** The text [update] stores for an entry, or the exception raised. *)
Definition encode_entry (v : str) : result str :=
  let v := encode_utf8 v in
  let v := bytes_strip (encodebytes v) in
  decode_utf8 v.

(** The [for] loop of [update] over [enumerate(self.value)], from the
    entry at position [idx] on: the store when the loop is left and the
    exception that escapes, if any. *)
Fixpoint update_loop (self : t) (idx : nat) (vs : list str)
    (config : Store.t) : Store.t * option exn :=
  match vs with
  | [] => (config, None)
  | v :: vs =>
      match encode_entry v with
      | Ok v =>
          update_loop self (S idx) vs
            (Store.set config self.(section) (key self idx) v)
      | Raise e => (config, Some e)
      end
  end.

(** [update(self, config)] *)
Definition update (self : t) (config : Store.t) : Store.t * option exn :=
  update_loop self 0 self.(value) config.

(** The class invariant the spec states: bounded length, no duplicates. *)
Definition bounded_nodup (self : t) : Prop :=
  length self.(value) ≤ self.(max_length) ∧ NoDup self.(value).

(** An entry as [push] stores it: trimmed and not empty. *)
Definition trimmed (v : str) : Prop := strip v = v ∧ v ≠ "".

End _PaperworkRecent.

(** ** [_PaperworkSize]: the Size Pair *)

Module _PaperworkSize.
Import Py.

Record t : Type := mk {
  section : str;
  base_token : str;
  value : Z * Z;
  default_size : Z * Z;
  min_size : Z * Z;
}.

(** [__init__(self, section, base_token, default_size=(1024, 768),
    min_size=(400, 300))] *)
Definition init (section base_token : str) (default_size min_size : Z * Z) : t :=
  mk section base_token default_size default_size min_size.

Definition set_value (self : t) (v : Z * Z) : t :=
  mk self.(section) self.(base_token) v self.(default_size) self.(min_size).

(** The body of the [try] block of [load]: the pair it computes, or the
    exception it raises. *)
Definition load_try (self : t) (config : Store.t) : result (Z * Z) :=
  w ← Store.get config self.(section) (self.(base_token) +:+ "_w");
  w ← int w;
  let w := if (w <? self.(min_size).1)%Z then self.(min_size).1 else w in
  h ← Store.get config self.(section) (self.(base_token) +:+ "_h");
  h ← int h;
  let h := if (h <? self.(min_size).2)%Z then self.(min_size).2 else h in
  mret (w, h).

(** [load(self, config)]: the object after the call, and the exception
    that escapes, if any. *)
Definition load (self : t) (config : Store.t) : t * option exn :=
  match load_try self config with
  | Ok v => (set_value self v, None)
  | Raise e =>
      if Store.is_missing e
      then (set_value self self.(default_size), None)
      else (self, Some e)
  end.

(** [update(self, config)] *)
Definition update (self : t) (config : Store.t) : Store.t :=
  let config :=
    Store.set config self.(section) (self.(base_token) +:+ "_w")
      (str_int self.(value).1) in
  Store.set config self.(section) (self.(base_token) +:+ "_h")
    (str_int self.(value).2).

End _PaperworkSize.

(** ** [_PaperworkScannerCalibration]: the Calibration Record *)

Definition DEFAULT_CALIBRATION_RESOLUTION : Z := 200.
Definition RECOMMENDED_SCAN_RESOLUTION : Z := 300.

Module _PaperworkScannerCalibration.
Import Py.

(** [value] is [None] or [(resolution, ((a_x, a_y), (b_x, b_y)))]. *)
Record t : Type := mk {
  section : str;
  value : option (Z * ((Z * Z) * (Z * Z)));
}.

Definition init (section : str) : t := mk section None.

(** The body of the outer [try] block of [load]. *)
Definition load_try (config : Store.t) : result (Z * ((Z * Z) * (Z * Z))) :=
  pt_a_x ← Store.get config "Scanner" "Calibration_Pt_A_X" ≫= int;
  pt_a_y ← Store.get config "Scanner" "Calibration_Pt_A_Y" ≫= int;
  pt_b_x ← Store.get config "Scanner" "Calibration_Pt_B_X" ≫= int;
  pt_b_y ← Store.get config "Scanner" "Calibration_Pt_B_Y" ≫= int;
  let '(pt_a_x, pt_b_x) :=
    if (pt_a_x >? pt_b_x)%Z then (pt_b_x, pt_a_x) else (pt_a_x, pt_b_x) in
  let '(pt_a_y, pt_b_y) :=
    if (pt_a_y >? pt_b_y)%Z then (pt_b_y, pt_a_y) else (pt_a_y, pt_b_y) in
  resolution ←
    match Store.get config "Scanner" "Calibration_Resolution" ≫= int with
    | Ok r => Ok r
    | Raise e =>
        if Store.is_missing e then Ok DEFAULT_CALIBRATION_RESOLUTION
        else Raise e
    end;
  mret (resolution, ((pt_a_x, pt_a_y), (pt_b_x, pt_b_y))).

(** [load(self, config)]: the object after the call, and the exception
    that escapes, if any. *)
Definition load (self : t) (config : Store.t) : t * option exn :=
  match load_try config with
  | Ok v => (mk self.(section) (Some v), None)
  | Raise e =>
      if Store.is_missing e
      then (mk self.(section) None, None)   (* no calibration -> no cropping *)
      else (self, Some e)
  end.

(** [update(self, config)] *)
Definition update (self : t) (config : Store.t) : Store.t :=
  match self.(value) with
  | None => config
  | Some (resolution, ((a_x, a_y), (b_x, b_y))) =>
      let config := Store.set config "Scanner" "Calibration_Resolution" (str_int resolution) in
      let config := Store.set config "Scanner" "Calibration_Pt_A_X" (str_int a_x) in
      let config := Store.set config "Scanner" "Calibration_Pt_A_Y" (str_int a_y) in
      let config := Store.set config "Scanner" "Calibration_Pt_B_X" (str_int b_x) in
      Store.set config "Scanner" "Calibration_Pt_B_Y" (str_int b_y)
  end.

End _PaperworkScannerCalibration.

(** The normal form of a calibration value: point A is the top-left
    corner, point B the bottom-right one. *)
Definition calibration_ordered (v : option (Z * ((Z * Z) * (Z * Z)))) : Prop :=
  match v with
  | Some (_, ((a_x, a_y), (b_x, b_y))) => (a_x ≤ b_x)%Z ∧ (a_y ≤ b_y)%Z
  | None => True
  end.

(** ** [_ScanTimes]: the Scan-Time Table *)

Module _ScanTimes.
Import Py.

Definition __ITEM_2_CONFIG : list (str * (str * str)) :=
  [ ("calibration", ("Scanner", "ScanTimeCalibration"));
    ("normal", ("Scanner", "ScanTime"));
    ("ocr", ("OCR", "OCRTime")) ].

Section float.
(** Floating-point numbers are not modelled: the type of Python floats and
    the builtin [float(s)] on text are parameters.  [float_of_str s] is
    [None] when [float(s)] raises [ValueError]. *)
Context {float_t : Type} (float_of_str : str → option float_t).

Definition float (s : str) : result float_t :=
  match float_of_str s with
  | Some x => Ok x
  | None => Raise (ValueError "could not convert string to float")
  end.

Record t : Type := mk {
  section : str;
  values : gmap str float_t;
}.

(** [__init__(self)] *)
Definition init : t := mk "Scanner" ∅.

(** The [for] loop of [load] over the items still to visit: the dictionary
    after the loop, and the exception that escapes, if any. *)
Fixpoint load_items (items : list (str * (str * str))) (config : Store.t)
    (values : gmap str float_t) : gmap str float_t * option exn :=
  match items with
  | [] => (values, None)
  | (k, cfg) :: items =>
      match Store.get config cfg.1 cfg.2 ≫= float with
      | Ok value => load_items items config (<[k := value]> values)
      | Raise e =>
          if Store.is_missing e
          then load_items items config (delete k values)
          else (values, Some e)
      end
  end.

(** [load(self, config)] *)
Definition load (self : t) (config : Store.t) : t * option exn :=
  let '(values, e) := load_items __ITEM_2_CONFIG config self.(values) in
  (mk self.(section) values, e).

(** The stored text of a phase, parsed: [None] when the key is absent,
    [Some None] when its text is present and [float] rejects it. *)
Definition phase_value (config : Store.t) (cfg : str * str)
    : option (option float_t) :=
  float_of_str <$> Store.lookup config cfg.1 cfg.2.

End float.

Arguments t : clear implicits.

(** [self.__ITEM_2_CONFIG[k]], [None] when [k not in self.__ITEM_2_CONFIG]. *)
Definition item_config (k : str) : option (str * str) :=
  (list_to_map __ITEM_2_CONFIG : gmap str (str * str)) !! k.

Section float_text.
(** One more parameter: the text [str(v)] of a float. *)
Context {float_t : Type} (str_float : float_t → str).

(** One turn of the [for] loop of [update], for the item [(k, v)]. *)
Definition update_item (config : Store.t) (kv : str * float_t) : Store.t :=
  match item_config kv.1 with
  | None => config                          (* logger.warning; continue *)
  | Some cfg => Store.set config cfg.1 cfg.2 (str_float kv.2)
  end.

(** The [for] loop of [update] over the items of the dictionary, in the
    order [items] in which the dictionary yields them. *)
Definition update_items (items : list (str * float_t)) (config : Store.t)
    : Store.t :=
  foldl update_item config items.

(** [update(self, config)] *)
Definition update (self : t float_t) (config : Store.t) : Store.t :=
  update_items (map_to_list self.(values)) config.

(** [__setitem__(self, item, value)] *)
Definition __setitem__ (self : t float_t) (item : str) (value : float_t)
    : t float_t :=
  mk self.(section) (<[item := value]> self.(values)).

End float_text.

Section binary64.
(** A Python [float] is an IEEE 754 binary64 number, and so is a primitive
    float: the literal [60.0] is the same number in both. *)
Import PrimFloat.

(** [__getitem__(self, item)] *)
Definition __getitem__ (self : t PrimFloat.float) (item : str)
    : PrimFloat.float :=
  match self.(values) !! item with
  | Some v => v
  | None => 60.0%float
  end.

End binary64.

End _ScanTimes.

(** ** [PaperworkSetting] and [_PaperworkDate]: the Date Setting *)

Module PaperworkSetting.
Import Py.

(** Modelled from the spec: the Typed Setting of spec §4.1, the class
    [paperwork_backend.config.PaperworkSetting], whose code is not part of
    this repository.  It "wraps one configuration key; converts between
    persisted string and typed value; supplies a default when absent". *)
Record t (A : Type) : Type := mk {
  section : str;
  token : str;
  default_value_func : unit → option A;
  constructor : str → result A;
  value : option A;
}.
Arguments mk {A}.
Arguments section {A}.
Arguments token {A}.
Arguments default_value_func {A}.
Arguments constructor {A}.
Arguments value {A}.

(** Modelled from the spec: [PaperworkSetting(section, token)] as
    [_PaperworkDate.__init__] builds it, a setting of text with no
    conversion, whose value is [None] when the key is absent (the [load] of
    [_PaperworkDate] tests [value is None]). *)
Definition init (section token : str) : t str :=
  mk section token (λ _, None) Ok None.

(** Modelled from the spec: [load] of the Typed Setting.  Spec §4.1:
    "[load(store)] reads (section, key) from the store; on success,
    converts the raw value through a declared conversion function; on
    missing-key or conversion failure, applies the default-value provider
    and suppresses the error". *)
Definition load {A} (self : t A) (config : Store.t) : t A :=
  let v :=
    match Store.get config self.(section) self.(token) ≫= self.(constructor) with
    | Ok v => Some v
    | Raise _ => self.(default_value_func) ()
    end in
  mk self.(section) self.(token) self.(default_value_func)
     self.(constructor) v.

End PaperworkSetting.

Module datetime.
Import Py.

Record t : Type := mk {
  year : Z; month : Z; day : Z;
  hour : Z; minute : Z; second : Z; microsecond : Z;
}.

Definition is_leap (y : Z) : bool :=
  ((y mod 4 =? 0) && (negb (y mod 100 =? 0) || (y mod 400 =? 0)))%Z.

Definition days_in_month (y m : Z) : Z :=
  if (m =? 2)%Z then (if is_leap y then 29 else 28)%Z
  else if ((m =? 4) || (m =? 6) || (m =? 9) || (m =? 11))%Z then 30%Z
  else 31%Z.

(** [\d] in a pattern for [str]: a decimal digit of any script. *)
Definition is_digit (ch : N) : bool :=
  match to_decimal ch with Some _ => true | None => false end.

(** [int] of a one-digit text. *)
Definition dval (ch : N) : Z := Z.of_N (default 0%N (to_decimal ch)).

(** [%Y], the pattern [\d\d\d\d] *)
Definition match_Y (s : list N) : option (Z * list N) :=
  match s with
  | c0 :: c1 :: c2 :: c3 :: r =>
      if is_digit c0 && is_digit c1 && is_digit c2 && is_digit c3
      then Some (1000 * dval c0 + 100 * dval c1 + 10 * dval c2 + dval c3, r)%Z
      else None
  | _ => None
  end.

(** [%m], the pattern [1[0-2]|0[1-9]|[1-9]] *)
Definition match_m (s : list N) : option (Z * list N) :=
  match s with
  | c0 :: r0 =>
      let one := if between 49 57 c0 then Some (dval c0, r0) else None in
      match r0 with
      | c1 :: r1 =>
          if (c0 =? 49)%N && between 48 50 c1
          then Some (10 + dval c1, r1)%Z
          else if (c0 =? 48)%N && between 49 57 c1
          then Some (dval c1, r1)
          else one
      | [] => one
      end
  | [] => None
  end.

(** [%d], the pattern [3[0-1]|[1-2]\d|0[1-9]|[1-9]| [1-9]] *)
Definition match_d (s : list N) : option (Z * list N) :=
  match s with
  | c0 :: r0 =>
      let one := if between 49 57 c0 then Some (dval c0, r0) else None in
      match r0 with
      | c1 :: r1 =>
          if (c0 =? 51)%N && between 48 49 c1
          then Some (30 + dval c1, r1)%Z
          else if between 49 50 c0 && is_digit c1
          then Some (10 * dval c0 + dval c1, r1)%Z
          else if (c0 =? 48)%N && between 49 57 c1
          then Some (dval c1, r1)
          else if between 49 57 c0 then Some (dval c0, r0)
          else if (c0 =? 32)%N && between 49 57 c1
          then Some (dval c1, r1)
          else None
      | [] => one
      end
  | [] => None
  end.

Definition match_dash (s : list N) : option (list N) :=
  match s with
  | c :: r => if (c =? 45)%N then Some r else None
  | [] => None
  end.

(** The match of the pattern of ["%Y-%m-%d"] at the start of the text:
    year, month, day and the text left over. *)
Definition match_Ymd (s : list N) : option (Z * Z * Z * list N) :=
  '(y, s) ← match_Y s;
  s ← match_dash s;
  '(m, s) ← match_m s;
  s ← match_dash s;
  '(d, s) ← match_d s;
  Some (y, m, d, s).

(** [datetime.datetime.strptime(date_string, "%Y-%m-%d")].  Every failure
    is a [ValueError]. *)
Definition strptime_Ymd (date_string : str) : result t :=
  match code_points (list_ascii_of_string date_string) ≫= match_Ymd with
  | None => Raise (ValueError "time data does not match format")
  | Some (y, m, d, rest) =>
      if negb (bool_decide (rest = []))
      then Raise (ValueError "unconverted data remains")
      else if (y <? 1)%Z then Raise (ValueError "year is out of range")
      else if (days_in_month y m <? d)%Z
      then Raise (ValueError "day is out of range for month")
      else Ok (mk y m d 0 0 0 0)
  end.

End datetime.

Module _PaperworkDate.
Import Py.

(** [default_value_func] reads the clock ([datetime.datetime.today()]) or
    returns a fixed date: it is a function of the current time. *)
Record t : Type := mk {
  section : str;
  setting : PaperworkSetting.t str;
  default_value_func : datetime.t → datetime.t;
  value : option datetime.t;
  date_format : str;
}.

(** [__init__(self, section, token, default_value_func)], called at time
    [now]. *)
Definition init (section token : str)
    (default_value_func : datetime.t → datetime.t) (now : datetime.t) : t :=
  mk section (PaperworkSetting.init section token) default_value_func
     (Some (default_value_func now)) "%Y-%m-%d".

(** [load(self, config)], called at time [now]: the object after the
    call, and the exception that escapes, if any. *)
Definition load (self : t) (config : Store.t) (now : datetime.t)
    : t * option exn :=
  let setting := PaperworkSetting.load self.(setting) config in
  let self := mk self.(section) setting self.(default_value_func)
                 self.(value) self.(date_format) in
  match PaperworkSetting.value setting with
  | None =>
      (mk self.(section) setting self.(default_value_func)
          (Some (self.(default_value_func) now)) self.(date_format), None)
  | Some value =>
      match datetime.strptime_Ymd value with
      | Ok dt =>
          (mk self.(section) setting self.(default_value_func) (Some dt)
              self.(date_format), None)
      | Raise e => (self, Some e)
      end
  end.

End _PaperworkDate.

(** A Date Setting whose inner setting is the one [__init__] builds: text
    with no conversion, [None] when the key is absent. *)
Definition date_setting_built (self : _PaperworkDate.t) : Prop :=
  PaperworkSetting.default_value_func (_PaperworkDate.setting self) = (λ _, None)
  ∧ PaperworkSetting.constructor (_PaperworkDate.setting self) = Py.Ok.

(** The stored text of the Date Setting. *)
Definition date_stored (self : _PaperworkDate.t) (config : Store.t)
    : option string :=
  Store.lookup config
    (PaperworkSetting.section (_PaperworkDate.setting self))
    (PaperworkSetting.token (_PaperworkDate.setting self)).

(** ** The scanner driver and the Device Initializer *)

Module pyinsane2.
Import Py.

(** The value of a scanner option: text (a source, a mode) or a number (a
    resolution). *)
Inductive optval : Type :=
| Str (s : str)
| Int (n : Z).

(** A call into the driver changes the state of the outside world and
    returns a value or raises. *)
Definition M (world A : Type) : Type := world → result A * world.

#[global] Instance M_ret world : MRet (M world) := λ A a w, (Ok a, w).
#[global] Instance M_bind world : MBind (M world) := λ A B k m w,
  match m w with
  | (Ok a, w) => k a w
  | (Raise e, w) => (Raise e, w)
  end.

Definition raise {world A} (e : exn) : M world A := λ w, (Raise e, w).

(** [try: m except pyinsane2.PyinsaneException as exc: handler] *)
Definition try_except_PyinsaneException {world A}
    (m : M world A) (handler : exn → M world A) : M world A := λ w,
  match m w with
  | (Raise (PyinsaneException msg), w) => handler (PyinsaneException msg) w
  | r => r
  end.

(** The driver collaborator (the [pyinsane2] library, spec §6), taken as a
    parameter: it "enumerates physical devices (each with a stable
    name/identifier and a string-keyed option map); exposes set-option and
    maximize-scan-area operations that may fail with a driver-specific
    error condition".  [dev] is the type of device objects. *)
Record driver (world dev : Type) : Type := mk {
  (** [pyinsane2.Scanner(name=devid)] *)
  Scanner : option str → M world dev;
  (** the keys of [dev.options] *)
  options : dev → M world (list str);
  (** [dev.options[opt].value] *)
  option_value : dev → str → M world optval;
  (** [pyinsane2.set_scanner_opt(dev, opt, values)] *)
  set_scanner_opt : dev → str → list optval → M world unit;
  (** [pyinsane2.maximize_scan_area(dev)] *)
  maximize_scan_area : dev → M world unit;
  (** [pyinsane2.get_devices()] *)
  get_devices : M world (list dev);
  (** [x.name] *)
  name : dev → str;
}.
Arguments Scanner {world dev}.
Arguments options {world dev}.
Arguments option_value {world dev}.
Arguments set_scanner_opt {world dev}.
Arguments maximize_scan_area {world dev}.
Arguments get_devices {world dev}.
Arguments name {world dev}.

End pyinsane2.

(** The settings of the registry the Device Initializer reads:
    [config['scanner_devid'].value], [config['scanner_source'].value] and
    [config['scanner_resolution'].value]. *)
Record registry : Type := mk_registry {
  scanner_devid : option string;
  scanner_source : option string;
  scanner_resolution : Z;
}.

Section device_initializer.
Import Py pyinsane2.
Context {world dev : Type} (drv : driver world dev).

(** [int(v)] for the value of an option. *)
Definition int_optval (v : optval) : result Z :=
  match v with
  | Int n => Ok n
  | Str s => int s
  end.

(** The source paragraph of [_get_scanner]. *)
Definition set_source (config : registry) (dev_ : dev)
    (preferred_sources : option (list str)) : M world unit :=
  let config_source := config.(scanner_source) in
  opts ← drv.(options) dev_;
  if bool_decide ("source" ∉ opts) then mret tt
  else if bool_decide (preferred_sources ≠ None ∧ preferred_sources ≠ Some [])
  then drv.(set_scanner_opt) dev_ "source"
         (Str <$> default [] preferred_sources)
  else if bool_decide (config_source ≠ None ∧ config_source ≠ Some "")
  then drv.(set_scanner_opt) dev_ "source" [Str (default "" config_source)]
  else mret tt.

(** The resolution paragraph of [_get_scanner]: the resolution that is
    returned. *)
Definition set_resolution (config : registry) (dev_ : dev) : M world Z :=
  let resolution := config.(scanner_resolution) in
  opts ← drv.(options) dev_;
  if bool_decide ("resolution" ∉ opts) then mret resolution
  else
    try_except_PyinsaneException
      (_ ← drv.(set_scanner_opt) dev_ "resolution" [Int resolution];
       mret resolution)
      (λ exc,
         v ← drv.(option_value) dev_ "resolution";
         match int_optval v with
         | Ok resolution => mret resolution
         | Raise e => raise e
         end).

(** The mode paragraph of [_get_scanner]. *)
Definition set_mode (dev_ : dev) : M world unit :=
  opts ← drv.(options) dev_;
  if bool_decide ("mode" ∉ opts) then mret tt
  else
    try_except_PyinsaneException
      (drv.(set_scanner_opt) dev_ "mode" [Str "Color"])
      (λ exc, mret tt).

(** The last paragraph of [_get_scanner]. *)
Definition maximize (dev_ : dev) : M world unit :=
  try_except_PyinsaneException (drv.(maximize_scan_area) dev_)
    (λ exc, mret tt).

(** [_get_scanner(config, devid, preferred_sources=None)] *)
Definition _get_scanner (config : registry) (devid : option str)
    (preferred_sources : option (list str)) : M world (dev * Z) :=
  dev_ ← drv.(Scanner) devid;
  _ ← set_source config dev_ preferred_sources;
  resolution ← set_resolution config dev_;
  _ ← set_mode dev_;
  _ ← maximize dev_;
  mret (dev_, resolution).

(** [except (KeyError, pyinsane2.PyinsaneException)] *)
Definition is_KeyError_or_PyinsaneException (e : exn) : bool :=
  match e with
  | KeyError _ | PyinsaneException _ => true
  | _ => false
  end.

(** [x.name[:4] != "v4l:"]: the first four characters of a text are
    ["v4l:"] exactly when its first four bytes are. *)
Definition not_v4l (x : dev) : bool :=
  bool_decide (substring 0 4 (drv.(name) x) ≠ "v4l:").

(** The inner [try] block of [get_scanner], entered while [exc] is being
    handled: a bare [raise] raises [exc] again. *)
Definition fallback (config : registry)
    (preferred_sources : option (list str)) (exc : exn) : M world (dev * Z) :=
  devices ← drv.(get_devices);
  let devices := List.filter not_v4l devices in
  match devices with
  | [x] => _get_scanner config (Some (drv.(name) x)) preferred_sources
  | _ => raise exc
  end.

(** [get_scanner(config, preferred_sources=None)] *)
Definition get_scanner (config : registry)
    (preferred_sources : option (list str)) : M world (dev * Z) := λ w,
  let devid := config.(scanner_devid) in
  match _get_scanner config devid preferred_sources w with
  | (Raise exc, w) =>
      if is_KeyError_or_PyinsaneException exc then
        (* this is a fallback mechanism, but what interest us is the first
           exception, not the one from the fallback *)
        try_except_PyinsaneException (fallback config preferred_sources exc)
          (λ _, raise exc) w
      else (Raise exc, w)
  | r => r
  end.

End device_initializer.

(** ** Enumerations used by the proofs *)

(** Every byte. *)
Definition all_ascii : list ascii := ascii_of_nat <$> seq 0 256.

(** The numbers below [n]. *)
Definition below (n : nat) : list N := N.of_nat <$> seq 0 n.

(** The 6-bit values [b2a_groups] reads off a group: the second one joins
    two bits of a byte with the high four bits [h] of the next byte, the
    third one four bits of a byte with the high two bits [t] of the next. *)
Definition join2 (a : ascii) (h : N) : N :=
  N.lor (N.shiftl (N.land (Py.code a) 3) 4) h.
Definition join3 (b : ascii) (t : N) : N :=
  N.lor (N.shiftl (N.land (Py.code b) 15) 2) t.

(** The text [_PaperworkRecent.update] stores for an entry. *)
Definition stored_text (v : string) : string :=
  Py.bytes_strip (Py.encodebytes v).

(** ** Values used to run the model on examples *)

(** A stand-in for [float] that accepts integer literals only. *)
Definition float_of_int_literal (s : string) : option Z :=
  match Py.int s with Py.Ok n => Some n | Py.Raise _ => None end.

(** The window size of [load_config], holding 800x600. *)
Definition main_win_size_800_600 : _PaperworkSize.t :=
  _PaperworkSize.mk "GUI" "main_win_size" (800, 600)%Z (1024, 768)%Z
    (400, 300)%Z.

(** The same setting holding 200x900: the width is below its minimum. *)
Definition main_win_size_200_900 : _PaperworkSize.t :=
  _PaperworkSize.mk "GUI" "main_win_size" (200, 900)%Z (1024, 768)%Z
    (400, 300)%Z.

(** A store whose window width is not a number. *)
Definition store_bad_width : Store.t :=
  Store.set (Store.set ∅ "GUI" "main_win_size_w" "abc")
    "GUI" "main_win_size_h" "700".

(** A store whose scan time is not a number. *)
Definition store_bad_scan_time : Store.t :=
  Store.set ∅ "Scanner" "ScanTime" "fast".

Definition epoch : datetime.t := datetime.mk 1970 1 1 0 0 0 0.

(** [_PaperworkDate("Update", "last_check", lambda: datetime(1970, 1, 1))] *)
Definition last_update_check : _PaperworkDate.t :=
  _PaperworkDate.init "Update" "last_check" (λ _, epoch) epoch.

(** A store whose date uses slashes. *)
Definition store_bad_date : Store.t :=
  Store.set ∅ "Update" "last_check" "2014/01/05".

(** [_PaperworkRecent("recent", "documents", 3)] after three pushes, and
    the store it was written to. *)
Definition last_documents_abc : _PaperworkRecent.t :=
  _PaperworkRecent.push_all (_PaperworkRecent.init "recent" "documents" 3)
    ["a"; "b"; "c"].
Definition store_abc : Store.t :=
  (_PaperworkRecent.update last_documents_abc ∅).1.

(** The same setting in a later session, after one push. *)
Definition last_documents_x : _PaperworkRecent.t :=
  _PaperworkRecent.push_all (_PaperworkRecent.init "recent" "documents" 3)
    ["x"].

(** A registry: device ["X"], source ["Flatbed"], 300 dpi. *)
Definition registry_X : registry :=
  mk_registry (Some "X") (Some "Flatbed") 300.

(** A driver whose devices accept everything but the resolution, and
    report 150 dpi. *)
Definition driver_rejects_resolution : pyinsane2.driver unit string :=
  pyinsane2.mk unit string
    (λ devid, mret (default "" devid))
    (λ _, mret ["source"; "resolution"; "mode"])
    (λ _ _, mret (pyinsane2.Int 150))
    (λ _ opt _,
       if bool_decide (opt = "resolution")
       then pyinsane2.raise (Py.PyinsaneException "invalid value")
       else mret tt)
    (λ _, mret tt)
    (mret [])
    id.

(** A driver that does not know the device ["X"]; [devices] are the
    devices it enumerates, and configuring the source of any of them raises
    [source_error]. *)
Definition driver_without_X (devices : list string) (source_error : Py.exn)
    : pyinsane2.driver unit string :=
  pyinsane2.mk unit string
    (λ devid,
       if bool_decide (devid = Some "X")
       then pyinsane2.raise (Py.PyinsaneException "X: no such device")
       else mret (default "" devid))
    (λ _, mret ["source"; "resolution"])
    (λ _ _, mret (pyinsane2.Int 150))
    (λ _ opt _,
       if bool_decide (opt = "source") then pyinsane2.raise source_error
       else mret tt)
    (λ _, mret tt)
    (mret devices)
    id.

(** The same driver, whose devices accept every option. *)
Definition driver_without_X_ok (devices : list string)
    : pyinsane2.driver unit string :=
  pyinsane2.mk unit string
    (λ devid,
       if bool_decide (devid = Some "X")
       then pyinsane2.raise (Py.PyinsaneException "X: no such device")
       else mret (default "" devid))
    (λ _, mret ["source"; "resolution"])
    (λ _ _, mret (pyinsane2.Int 150))
    (λ _ _ _, mret tt)
    (λ _, mret tt)
    (mret devices)
    id.

(** A calibration whose corners were stored in the wrong order on both
    axes, at 300 dpi. *)
Definition calibration_unordered : _PaperworkScannerCalibration.t :=
  _PaperworkScannerCalibration.mk "Scanner"
    (Some (300, ((120, 300), (40, 15))))%Z.

(** A history of five documents kept by an object of capacity ten. *)
Definition documents_five : _PaperworkRecent.t :=
  _PaperworkRecent.push_all (_PaperworkRecent.init "recent" "documents" 10)
    ["a"; "b"; "c"; "d"; "e"].

(** [_PaperworkRecent("recent", "search", 10)] after two pushes. *)
Definition last_searches_two : _PaperworkRecent.t :=
  _PaperworkRecent.push_all (_PaperworkRecent.init "recent" "search" 10)
    ["invoice"; "tax 2014"].

(** The text of an integer, standing in for [str] of a float. *)
Definition str_of_int_float (v : Z) : string := Py.str_int v.

(** A Scan-Time Table that cached two phases and a phase it does not
    know. *)
Definition scan_times_cached : _ScanTimes.t Z :=
  _ScanTimes.__setitem__
    (_ScanTimes.__setitem__
       (_ScanTimes.__setitem__ _ScanTimes.init "normal" 12%Z)
       "ocr" 30%Z)
    "export" 5%Z.

(** A driver whose devices have every option, accept a source and a
    resolution, and reject the colour mode and the maximal scan area. *)
Definition driver_rejects_mode_and_area : pyinsane2.driver unit string :=
  pyinsane2.mk unit string
    (λ devid, mret (default "" devid))
    (λ _, mret ["source"; "resolution"; "mode"])
    (λ _ _, mret (pyinsane2.Int 150))
    (λ _ opt _,
       if bool_decide (opt = "mode")
       then pyinsane2.raise (Py.PyinsaneException "no colour mode")
       else mret tt)
    (λ _, pyinsane2.raise (Py.PyinsaneException "no scan area"))
    (mret [])
    id.

(** A driver whose devices reject every source. *)
Definition driver_rejects_source : pyinsane2.driver unit string :=
  pyinsane2.mk unit string
    (λ devid, mret (default "" devid))
    (λ _, mret ["source"; "resolution"; "mode"])
    (λ _ _, mret (pyinsane2.Int 150))
    (λ _ opt _,
       if bool_decide (opt = "source")
       then pyinsane2.raise (Py.PyinsaneException "no such source")
       else mret tt)
    (λ _, mret tt)
    (mret [])
    id.

(** A store with a window height that is not a number, and no width. *)
Definition store_bad_height_only : Store.t :=
  Store.set ∅ "GUI" "main_win_size_h" "abc".

(** * Properties *)

(** Closed decidable goals are settled by evaluation. *)
Ltac by_compute :=
  lazymatch goal with
  | |- ?P => refine (@bool_decide_unpack P _ _); vm_compute; exact I
  end.

(** ** Whitespace stripping *)

Section strip_facts.
Import Py.

Lemma drop_spaces_unfold back s :
  drop_spaces back s =
  match ws_head back s with
  | 0 => s
  | S k => drop_spaces back (drop (S k) s)
  end.
Proof.
  destruct s as [|c0 [|c1 [|c2 r]]]; simpl; try reflexivity.
  - destruct (is_space1 c0); reflexivity.
  - destruct (is_space1 c0); [reflexivity|].
    destruct (if back then _ else _); reflexivity.
  - destruct (is_space1 c0); [reflexivity|].
    destruct (if back then is_space2 c1 c0 else _); [reflexivity|].
    destruct (if back then is_space3 c2 c1 c0 else _); reflexivity.
Qed.

Lemma ws_head_le back s : ws_head back s ≤ length s.
Proof.
  destruct s as [|c0 [|c1 [|c2 r]]]; simpl; repeat case_match; lia.
Qed.

(** Induction following the recursion of [drop_spaces]. *)
Lemma drop_spaces_ind back (P : list ascii → Prop) :
  (∀ s, ws_head back s = 0 → P s) →
  (∀ s k, ws_head back s = S k → P (drop (S k) s) → P s) →
  ∀ s, P s.
Proof.
  intros H0 HS s.
  remember (length s) as n eqn:Hn. revert s Hn.
  induction n as [n IH] using lt_wf_ind. intros s ->.
  destruct (ws_head back s) as [|k] eqn:Hk; [by apply H0|].
  apply (HS s k Hk). eapply IH; [|reflexivity].
  pose proof (ws_head_le back s). rewrite length_drop. lia.
Qed.

Lemma drop_spaces_suffix back s : drop_spaces back s `suffix_of` s.
Proof.
  induction s as [s H0|s k Hk IH] using (drop_spaces_ind back);
    rewrite drop_spaces_unfold.
  - by rewrite H0.
  - rewrite Hk. etrans; [apply IH|]. apply suffix_drop.
Qed.

Lemma drop_spaces_head back s : ws_head back (drop_spaces back s) = 0.
Proof.
  induction s as [s H0|s k Hk IH] using (drop_spaces_ind back);
    rewrite drop_spaces_unfold.
  - by rewrite H0.
  - by rewrite Hk.
Qed.

Lemma drop_spaces_fix back s : ws_head back s = 0 → drop_spaces back s = s.
Proof. intros H. rewrite drop_spaces_unfold. by rewrite H. Qed.

(** A text that starts with no whitespace character keeps this property
    when it is cut short. *)
Lemma ws_head_app_0 back u q : ws_head back (u ++ q) = 0 → ws_head back u = 0.
Proof.
  destruct u as [|c0 [|c1 [|c2 u]]]; simpl; try done.
  - destruct (is_space1 c0); [done|]. by destruct q.
  - destruct (is_space1 c0); [done|].
    destruct (if back then is_space2 c1 c0 else _); [done|]. by destruct q.
Qed.

Lemma strip_chars_idemp s :
  let u := rstrip_chars (lstrip_chars s) in
  rstrip_chars (lstrip_chars u) = u.
Proof.
  unfold rstrip_chars, lstrip_chars. simpl.
  set (t := drop_spaces false s).
  set (u := reverse (drop_spaces true (reverse t))).
  assert (Ht : ws_head false t = 0) by apply drop_spaces_head.
  assert (Hu : ws_head true (reverse u) = 0).
  { unfold u. rewrite reverse_involutive. apply drop_spaces_head. }
  assert (Hp : u `prefix_of` t).
  { unfold u. destruct (drop_spaces_suffix true (reverse t)) as [p Hp].
    exists (reverse p). apply (inj reverse).
    by rewrite reverse_app, !reverse_involutive. }
  destruct Hp as [q Hq]. rewrite Hq in Ht. apply ws_head_app_0 in Ht.
  rewrite (drop_spaces_fix false u Ht), (drop_spaces_fix true _ Hu).
  apply reverse_involutive.
Qed.

Lemma strip_idemp s : strip (strip s) = strip s.
Proof.
  unfold strip. rewrite list_ascii_of_string_of_list_ascii.
  f_equal. apply strip_chars_idemp.
Qed.

Lemma all_spaces_unfold s :
  all_spaces s =
  match ws_head false s with
  | 0 => match s with [] => true | _ => false end
  | S k => all_spaces (drop (S k) s)
  end.
Proof.
  destruct s as [|c0 [|c1 [|c2 r]]]; simpl; try reflexivity.
  - destruct (is_space1 c0); reflexivity.
  - destruct (is_space1 c0); [reflexivity|].
    destruct (is_space2 c0 c1); reflexivity.
  - destruct (is_space1 c0); [reflexivity|].
    destruct (is_space2 c0 c1); [reflexivity|].
    destruct (is_space3 c0 c1 c2); reflexivity.
Qed.

Lemma all_spaces_lstrip s : all_spaces s = true → lstrip_chars s = [].
Proof.
  unfold lstrip_chars.
  induction s as [s H0|s k Hk IH] using (drop_spaces_ind false);
    rewrite all_spaces_unfold, drop_spaces_unfold.
  - rewrite H0. by destruct s.
  - by rewrite Hk.
Qed.

Lemma strip_whitespace_only s : whitespace_only s = true → strip s = "".
Proof.
  unfold whitespace_only, strip. intros H.
  by rewrite (all_spaces_lstrip _ H).
Qed.

Lemma strip_empty : strip "" = "".
Proof. reflexivity. Qed.

End strip_facts.

(** ** The Recent List: [push] *)

Section push_facts.
Import Py _PaperworkRecent.

Lemma push_present r v : strip v ∈ value r → push r v = r.
Proof.
  intros H. unfold push. destruct (decide (strip v = "")); [done|].
  by rewrite decide_True.
Qed.

Lemma push_blank r v : strip v = "" → push r v = r.
Proof. intros H. unfold push. by rewrite decide_True. Qed.

Lemma push_fresh r v :
  strip v ≠ "" → strip v ∉ value r →
  push r v =
    set_value r (if decide (max_length r < length (value r ++ [strip v]))
                 then drop 1 (value r ++ [strip v])
                 else value r ++ [strip v]).
Proof.
  intros H1 H2. unfold push. rewrite decide_False, decide_False by done.
  by destruct (decide _).
Qed.

Lemma push_fields r v :
  section (push r v) = section r ∧ base_token (push r v) = base_token r
  ∧ max_length (push r v) = max_length r.
Proof. unfold push. by repeat case_decide. Qed.

Lemma push_all_max_length r vs : max_length (push_all r vs) = max_length r.
Proof.
  revert r. induction vs as [|v vs IH]; intros r; [done|].
  simpl. rewrite IH. apply push_fields.
Qed.

Lemma push_bounded_nodup r v : bounded_nodup r → bounded_nodup (push r v).
Proof.
  intros [Hlen Hnd].
  destruct (decide (strip v = "")) as [He|He]; [by rewrite push_blank|].
  destruct (decide (strip v ∈ value r)) as [Hin|Hin]; [by rewrite push_present|].
  rewrite push_fresh by done. unfold bounded_nodup. simpl.
  assert (NoDup (value r ++ [strip v])) as Hnd'.
  { apply NoDup_app. split_and!; [done| |apply NoDup_singleton].
    intros x Hx ->%list_elem_of_singleton. done. }
  destruct (decide _) as [Hgt|Hle].
  - split.
    + rewrite length_drop. rewrite length_app in *. simpl in *. lia.
    + eapply sublist_NoDup; [done|apply sublist_drop].
  - split; [lia|done].
Qed.

Lemma push_trimmed r v :
  Forall trimmed (value r) → Forall trimmed (value (push r v)).
Proof.
  intros Hall.
  destruct (decide (strip v = "")) as [He|He]; [by rewrite push_blank|].
  destruct (decide (strip v ∈ value r)) as [Hin|Hin]; [by rewrite push_present|].
  rewrite push_fresh by done. simpl.
  assert (Forall trimmed (value r ++ [strip v])) as Hall'.
  { apply Forall_app. split; [done|]. apply Forall_singleton.
    split; [apply strip_idemp|done]. }
  destruct (decide _); [|done]. by apply Forall_drop.
Qed.

Lemma push_all_bounded_nodup r vs :
  bounded_nodup r → bounded_nodup (push_all r vs).
Proof.
  revert r. induction vs as [|v vs IH]; intros r Hr; [done|].
  apply IH, push_bounded_nodup, Hr.
Qed.

Lemma push_all_trimmed r vs :
  Forall trimmed (value r) → Forall trimmed (value (push_all r vs)).
Proof.
  revert r. induction vs as [|v vs IH]; intros r Hr; [done|].
  apply IH, push_trimmed, Hr.
Qed.

(** Pushing values whose trimmed forms are new and pairwise distinct keeps
    the last [max_length] entries of the extended list. *)
Lemma push_all_distinct r vs :
  length (value r) ≤ max_length r →
  NoDup (value r ++ (strip <$> vs)) →
  "" ∉ strip <$> vs →
  value (push_all r vs) =
    drop (length (value r ++ (strip <$> vs)) - max_length r)
         (value r ++ (strip <$> vs)).
Proof.
  revert r. induction vs as [|v vs IH]; intros r Hlen Hnd Hne.
  { simpl. rewrite app_nil_r. by replace (_ - _) with 0 by lia. }
  rewrite fmap_cons in *. simpl push_all.
  apply not_elem_of_cons in Hne as [Hv Hne].
  assert (strip v ∉ value r) as Hin.
  { apply NoDup_app in Hnd as (_ & Hd & _). intros Hx. apply (Hd _ Hx). left. }
  pose proof (push_fields r v) as (_ & _ & Hm).
  assert (value r ++ strip v :: (strip <$> vs)
          = (value r ++ [strip v]) ++ (strip <$> vs)) as Happ
    by (by rewrite <-app_assoc).
  rewrite Happ in Hnd |- *.
  assert (value (push r v) =
          if decide (max_length r < length (value r ++ [strip v]))
          then drop 1 (value r ++ [strip v]) else value r ++ [strip v]) as Hv1
    by (by rewrite push_fresh).
  destruct (value r ++ [strip v]) as [|x l] eqn:Hl; [by destruct (value r)|].
  assert (length (value r) = length l) as Hll.
  { apply (f_equal length) in Hl. rewrite length_app in Hl. simpl in Hl. lia. }
  simpl in Hv1. rewrite drop_0 in Hv1.
  destruct (decide _) as [Hgt|Hle].
  - (* the list was full: its oldest entry is evicted *)
    rewrite IH; rewrite ?Hm, ?Hv1.
    + simpl. rewrite !length_app.
      replace (S (length l + length (strip <$> vs)) - max_length r)
        with (S (length l + length (strip <$> vs) - max_length r)) by lia.
      done.
    + lia.
    + simpl in Hnd. by apply NoDup_cons in Hnd as [_ ?].
    + done.
  - rewrite IH; rewrite ?Hm, ?Hv1; [done|simpl; lia|done|done].
Qed.

End push_facts.

(** ** Plain ASCII text, integers and their decimal text *)

Section int_facts.
Import Py.

Lemma is_space2_ascii c0 c1 :
  (code c0 < 128)%N ∨ (code c1 < 128)%N → is_space2 c0 c1 = false.
Proof.
  intros H. unfold is_space2.
  destruct (N.eqb_spec (code c0) 0xC2); [|done].
  destruct (N.eqb_spec (code c1) 0x85); [lia|].
  destruct (N.eqb_spec (code c1) 0xA0); [lia|done].
Qed.

Lemma is_space3_ascii c0 c1 c2 :
  (code c0 < 128)%N ∨ (code c2 < 128)%N → is_space3 c0 c1 c2 = false.
Proof.
  intros [H|H]; unfold is_space3.
  - assert ((code c0 =? 0xE1)%N = false) as -> by (apply N.eqb_neq; lia).
    assert ((code c0 =? 0xE2)%N = false) as -> by (apply N.eqb_neq; lia).
    by assert ((code c0 =? 0xE3)%N = false) as -> by (apply N.eqb_neq; lia).
  - assert ((code c2 =? 0x80)%N = false) as -> by (apply N.eqb_neq; lia).
    assert ((code c2 =? 0x9F)%N = false) as -> by (apply N.eqb_neq; lia).
    assert ((code c2 =? 0xA8)%N = false) as -> by (apply N.eqb_neq; lia).
    assert ((code c2 =? 0xA9)%N = false) as -> by (apply N.eqb_neq; lia).
    assert ((code c2 =? 0xAF)%N = false) as -> by (apply N.eqb_neq; lia).
    assert (between 0x80 0x8A (code c2) = false) as ->.
    { unfold between. destruct (N.leb_spec 0x80 (code c2)); [lia|done]. }
    by rewrite !andb_false_r.
Qed.

Lemma ws_head_plain back c r : plain c → ws_head back (c :: r) = 0.
Proof.
  intros [Hs Hc]. unfold ws_head. rewrite Hs.
  destruct r as [|c1 [|c2 r]]; [done| |]; destruct back;
    rewrite ?is_space2_ascii, ?is_space3_ascii by auto; done.
Qed.

Lemma drop_spaces_plain back l : Forall plain l → drop_spaces back l = l.
Proof.
  intros H. apply drop_spaces_fix. destruct H; [done|].
  by apply ws_head_plain.
Qed.

Lemma strip_plain s : Forall plain (list_ascii_of_string s) → strip s = s.
Proof.
  intros H. unfold strip, lstrip_chars, rstrip_chars.
  rewrite (drop_spaces_plain false _ H).
  rewrite drop_spaces_plain by (by apply Forall_reverse).
  by rewrite reverse_involutive, string_of_list_ascii_of_string.
Qed.

Lemma digit_char_plain c : digit_char c → plain c.
Proof.
  unfold digit_char, digit_value, plain, is_space1, between.
  intros [d Hd].
  repeat match goal with
  | _ : context [(?a <=? ?b)%N] |- _ => destruct (N.leb_spec a b); simpl in *
  | |- context [(?a <=? ?b)%N] => destruct (N.leb_spec a b); simpl in *
  end; try done; lia.
Qed.

Lemma digit_value_pretty d :
  (d < 10)%N → digit_value (pretty_N_char d) = Some d.
Proof.
  intros H.
  assert (d = 0 ∨ d = 1 ∨ d = 2 ∨ d = 3 ∨ d = 4 ∨ d = 5 ∨ d = 6 ∨ d = 7
          ∨ d = 8 ∨ d = 9)%N as Hd by lia.
  by repeat destruct Hd as [->|Hd]; try subst d.
Qed.

(** The text [pretty_N_go x s] is [s] preceded by the decimal digits of [x],
    which [int_digits] reads back. *)
Lemma pretty_N_go_digits x :
  ∃ ds : list ascii,
    Forall digit_char ds
    ∧ ((0 < x)%N → ds ≠ [])
    ∧ (∀ s, list_ascii_of_string (pretty_N_go x s)
            = ds ++ list_ascii_of_string s)
    ∧ (∀ rest acc b,
         int_digits (ds ++ rest) acc b =
         int_digits rest (acc * 10 ^ N.of_nat (length ds) + x)%N
           (b || bool_decide (ds ≠ []))).
Proof.
  induction (N.lt_wf_0 x) as [x _ IH].
  destruct (decide (x = 0)%N) as [->|Hx].
  { exists []. split_and!; [constructor|lia|done|].
    intros rest acc b. simpl. f_equal; [lia|by destruct b]. }
  assert (0 < x)%N as Hpos by lia.
  destruct (IH (x `div` 10)%N) as (ds & Hds & _ & Htxt & Hval).
  { by apply N.div_lt. }
  assert (x `mod` 10 < 10)%N as Hmod by (by apply N.mod_lt).
  exists (ds ++ [pretty_N_char (x `mod` 10)]). split_and!.
  - apply Forall_app. split; [done|]. apply Forall_singleton.
    unfold digit_char. by rewrite digit_value_pretty.
  - by destruct ds.
  - intros s. rewrite pretty_N_go_step, Htxt by done. simpl.
    by rewrite <-app_assoc.
  - intros rest acc b. rewrite <-app_assoc, Hval. simpl.
    rewrite digit_value_pretty by done.
    f_equal.
    + rewrite length_app. simpl.
      replace (N.of_nat (length ds + 1)) with (N.succ (N.of_nat (length ds))) by lia.
      rewrite N.pow_succ_r'. pose proof (N.div_mod x 10). lia.
    + rewrite bool_decide_true; [by destruct b|by destruct ds].
Qed.

Lemma int_literal_digits ds n :
  Forall digit_char ds → ds ≠ [] →
  int_digits ds 0 false = Some n →
  int_literal ds = Some (Z.of_N n).
Proof.
  intros Hds Hne Hn. destruct ds as [|c r]; [done|].
  apply Forall_cons in Hds as [[d Hd] _].
  unfold int_literal.
  assert ((code c =? 45)%N = false ∧ (code c =? 43)%N = false) as [-> ->].
  { unfold digit_value, between in Hd.
    destruct (N.leb_spec 48 (code c)); [|done].
    split; apply N.eqb_neq; lia. }
  by rewrite Hn.
Qed.

Lemma int_pretty_N x :
  (0 < x)%N →
  ∃ ds, list_ascii_of_string (pretty_N_go x "") = ds
        ∧ Forall digit_char ds ∧ ds ≠ []
        ∧ int_digits ds 0 false = Some x.
Proof.
  intros Hx. destruct (pretty_N_go_digits x) as (ds & Hds & Hne & Htxt & Hval).
  exists ds. split_and!; [|done|by apply Hne|].
  - by rewrite Htxt, app_nil_r.
  - specialize (Hval [] 0%N false). rewrite app_nil_r in Hval.
    rewrite Hval. simpl. rewrite bool_decide_true by (by apply Hne).
    f_equal; lia.
Qed.

Lemma pretty_N_pos p : pretty (N.pos p) = pretty_N_go (N.pos p) "".
Proof. unfold pretty, pretty_N. by rewrite decide_False. Qed.

(** *** [int] on plain ASCII text *)

Lemma code_points_ascii l :
  Forall (λ c, (code c < 128)%N) l → code_points l = Some (code <$> l).
Proof.
  induction 1 as [|c l Hc _ IH]; [done|]. simpl.
  destruct (N.ltb_spec (code c) 128); [|lia]. by rewrite IH.
Qed.

Lemma transform_ascii l :
  Forall (λ c, (code c < 128)%N) l →
  transform_decimal_and_space (code <$> l) = l.
Proof.
  intros H. unfold transform_decimal_and_space.
  assert (forallb (λ ch, ch <? 128)%N (code <$> l) = true) as ->.
  { induction H as [|c l Hc _ IH]; [done|].
    rewrite fmap_cons. cbn [forallb]. rewrite IH.
    by destruct (N.ltb_spec (code c) 128); [|lia]. }
  rewrite <-list_fmap_compose. rewrite <-(list_fmap_id l) at 2.
  apply list_fmap_ext. intros _ c _. apply ascii_N_embedding.
Qed.

Lemma Py_ISSPACE_plain c : plain c → Py_ISSPACE c = false.
Proof.
  unfold plain, Py_ISSPACE, is_space1, between. intros [Hs _].
  repeat match goal with
  | _ : context [(?a <=? ?b)%N] |- _ => destruct (N.leb_spec a b); simpl in *
  | |- context [(?a <=? ?b)%N] => destruct (N.leb_spec a b); simpl in *
  end; try done; apply N.eqb_neq; lia.
Qed.

Lemma skip_spaces_plain l : Forall plain l → skip_spaces l = l.
Proof. destruct 1 as [|c l Hc _]; [done|]. simpl. by rewrite Py_ISSPACE_plain. Qed.

Lemma long_from_string_plain l :
  Forall plain l → long_from_string l = int_literal l.
Proof.
  intros H. unfold long_from_string. rewrite (skip_spaces_plain l H).
  rewrite skip_spaces_plain by (by apply Forall_reverse).
  by rewrite reverse_involutive.
Qed.

(** On a text of plain characters [int] reads an integer literal. *)
Lemma int_plain s :
  Forall plain (list_ascii_of_string s) →
  int s = match int_literal (list_ascii_of_string s) with
          | Some n => Ok n
          | None => Raise (ValueError "invalid literal for int() with base 10")
          end.
Proof.
  intros H. unfold int.
  assert (Forall (λ c, (code c < 128)%N) (list_ascii_of_string s)) as Ha
    by (eapply Forall_impl; [done|by intros c [_ ?]]).
  rewrite (code_points_ascii _ Ha). simpl.
  by rewrite (transform_ascii _ Ha), (long_from_string_plain _ H).
Qed.

(** The texts that have code points are the well-formed ones. *)
Lemma code_points_well_formed s :
  is_Some (code_points (list_ascii_of_string s)) ↔ well_formed s.
Proof.
  unfold well_formed. generalize (list_ascii_of_string s). clear s.
  intros l.
  assert (∀ n r, length r < n →
            (is_Some (code_points r) ↔ utf8_valid r = true)) as H;
    [|apply (H (S (length l))); lia].
  clear l. induction n as [|n IH]; [intros r Hr; lia|]. intros [|c0 r0] Hl.
  { by split; [|eexists]. }
  cbn [code_points utf8_valid]. simpl in Hl.
  assert (∀ (x : N) (r : list ascii), length r < n →
            (is_Some (cons x <$> code_points r) ↔ utf8_valid r = true)) as Hc.
  { intros x r Hr. rewrite fmap_is_Some. by apply IH. }
  assert (¬ is_Some (@None (list N))) as Hn by (by intros [? ?]).
  repeat case_match; simpl in *;
    rewrite ?andb_true_l, ?andb_false_l;
    try (split; [by intros ?%Hn|done]);
    try (apply Hc; simpl; lia);
    try (rewrite ?andb_true_iff in *; naive_solver).
Qed.

(** [int(str(n)) == n] *)
Lemma int_str_int n : int (str_int n) = Ok n.
Proof.
  unfold str_int, pretty, pretty_Z.
  destruct n as [|p|p]; [done| |].
  - unfold pretty, pretty_positive. rewrite pretty_N_pos.
    destruct (int_pretty_N (N.pos p)) as (ds & Htxt & Hds & Hne & Hval); [lia|].
    rewrite int_plain; rewrite Htxt.
    + by rewrite (int_literal_digits ds (N.pos p)).
    + eapply Forall_impl; [done|apply digit_char_plain].
  - unfold pretty, pretty_positive. rewrite pretty_N_pos.
    destruct (int_pretty_N (N.pos p)) as (ds & Htxt & Hds & Hne & Hval); [lia|].
    assert (list_ascii_of_string ("-" +:+ pretty_N_go (N.pos p) "")
            = "-"%char :: ds) as Htxt'
      by exact (f_equal (cons "-"%char) Htxt).
    rewrite int_plain; rewrite Htxt'.
    + simpl. by rewrite Hval.
    + constructor; [done|]. eapply Forall_impl; [done|apply digit_char_plain].
Qed.

(** [int] reads the decimal digits of every script, and ignores around
    them the whitespace of [Py_ISSPACE] and the whitespace above U+007F,
    but not the separators U+001C..U+001F, which [str.strip] removes. *)
Lemma int_decimal_digits :
  int "١٢٣٤" = Ok 1234%Z
  ∧ int " −5 " = Raise (ValueError "invalid literal for int() with base 10")
  ∧ int " -٥_٠ " = Ok (-50)%Z
  ∧ int (String (ascii_of_N 28) "5")
    = Raise (ValueError "invalid literal for int() with base 10")
  ∧ strip (String (ascii_of_N 28) "5") = "5".
Proof. by vm_compute. Qed.

End int_facts.

(** ** The store *)

Section store_facts.
Import Py.
Implicit Types (config : Store.t) (section opt value : string).

Lemma lookup_set_eq config section opt value :
  Store.lookup (Store.set config section opt value) section opt = Some value.
Proof.
  unfold Store.lookup, Store.set. rewrite lookup_insert_eq. simpl.
  apply lookup_insert_eq.
Qed.

Lemma lookup_set_ne config section opt value section' opt' :
  (section, opt) ≠ (section', opt') →
  Store.lookup (Store.set config section opt value) section' opt'
  = Store.lookup config section' opt'.
Proof.
  intros Hne. unfold Store.lookup, Store.set.
  destruct (decide (section = section')) as [<-|Hs].
  - rewrite lookup_insert_eq. simpl.
    rewrite lookup_insert_ne by congruence.
    by destruct (config !! section).
  - by rewrite lookup_insert_ne.
Qed.

Lemma get_ok config section opt value :
  Store.get config section opt = Ok value
  ↔ Store.lookup config section opt = Some value.
Proof.
  unfold Store.get, Store.lookup.
  destruct (config !! section) as [opts|]; simpl; [|done].
  destruct (opts !! opt); split; congruence.
Qed.

Lemma get_raise config section opt e :
  Store.get config section opt = Raise e
  ↔ Store.lookup config section opt = None
    ∧ e = match config !! section with
          | Some _ => NoOptionError opt section
          | None => NoSectionError section
          end.
Proof.
  unfold Store.get, Store.lookup.
  destruct (config !! section) as [opts|]; simpl;
    [destruct (opts !! opt)|]; intuition congruence.
Qed.

Lemma get_absent config section opt :
  Store.lookup config section opt = None →
  ∃ e, Store.get config section opt = Raise e ∧ Store.is_missing e = true.
Proof.
  intros H. eexists. split; [apply get_raise; done|].
  by destruct (config !! section).
Qed.

Lemma get_present config section opt value :
  Store.lookup config section opt = Some value →
  Store.get config section opt = Ok value.
Proof. apply get_ok. Qed.

Lemma int_not_missing s e : int s = Raise e → Store.is_missing e = false.
Proof. unfold int. by destruct (_ ≫= _); intros [= <-]. Qed.

End store_facts.

(** ** The Size Pair *)

Section size_facts.
Import Py _PaperworkSize.

Lemma size_keys_differ (base : string) : base +:+ "_w" ≠ base +:+ "_h".
Proof. by intros ?%(inj (String.app base)). Qed.

Lemma clamp_max (x m : Z) : (if (x <? m)%Z then m else x) = Z.max x m.
Proof. destruct (Z.ltb_spec x m); lia. Qed.

(** What [load] does, by cases on the two stored values. *)
Lemma size_load_cases self config :
  load self config =
  match Store.lookup config (section self) (base_token self +:+ "_w") with
  | None => (set_value self (default_size self), None)
  | Some sw =>
      match int sw with
      | Raise e => (self, Some e)
      | Ok w =>
          match Store.lookup config (section self) (base_token self +:+ "_h") with
          | None => (set_value self (default_size self), None)
          | Some sh =>
              match int sh with
              | Raise e => (self, Some e)
              | Ok h =>
                  (set_value self
                     (Z.max w (min_size self).1, Z.max h (min_size self).2),
                   None)
              end
          end
      end
  end.
Proof.
  unfold load, load_try.
  destruct (Store.lookup _ _ (_ +:+ "_w")) as [sw|] eqn:Hw.
  2:{ destruct (get_absent _ _ _ Hw) as (e & -> & He). simpl. by rewrite He. }
  rewrite (get_present _ _ _ _ Hw). simpl.
  destruct (int sw) as [w|e] eqn:Hiw; simpl.
  2:{ by rewrite (int_not_missing _ _ Hiw). }
  destruct (Store.lookup _ _ (_ +:+ "_h")) as [sh|] eqn:Hh.
  2:{ destruct (get_absent _ _ _ Hh) as (e & -> & He). simpl. by rewrite He. }
  rewrite (get_present _ _ _ _ Hh). simpl.
  destruct (int sh) as [h|e] eqn:Hih; simpl.
  2:{ by rewrite (int_not_missing _ _ Hih). }
  by rewrite !clamp_max.
Qed.

Lemma size_update_lookup self config :
  let config' := update self config in
  Store.lookup config' (section self) (base_token self +:+ "_w")
    = Some (str_int (value self).1)
  ∧ Store.lookup config' (section self) (base_token self +:+ "_h")
    = Some (str_int (value self).2).
Proof.
  unfold update. split.
  - rewrite lookup_set_ne, lookup_set_eq; [done|].
    intros [= H]. by apply (size_keys_differ (base_token self)).
  - apply lookup_set_eq.
Qed.

Lemma size_update_load self config :
  load self (update self config) =
  (set_value self (Z.max (value self).1 (min_size self).1,
                   Z.max (value self).2 (min_size self).2), None).
Proof.
  rewrite size_load_cases.
  destruct (size_update_lookup self config) as [-> ->].
  by rewrite !int_str_int.
Qed.

End size_facts.

(** ** The Scan-Time Table *)

Section scantimes_facts.
Import Py _ScanTimes.
Context {float_t : Type} (float_of_str : string → option float_t).

Lemma scan_load_items_cons k s o items config (values : gmap string float_t) :
  load_items float_of_str ((k, (s, o)) :: items) config values =
  match Store.lookup config s o with
  | None => load_items float_of_str items config (delete k values)
  | Some raw =>
      match float_of_str raw with
      | Some v => load_items float_of_str items config (<[k := v]> values)
      | None =>
          (values, Some (ValueError "could not convert string to float"))
      end
  end.
Proof.
  simpl. destruct (Store.lookup config s o) as [raw|] eqn:Hl.
  - rewrite (get_present _ _ _ _ Hl). simpl. unfold float.
    by destruct (float_of_str raw).
  - destruct (get_absent _ _ _ Hl) as (e & -> & He). simpl. by rewrite He.
Qed.

Lemma scan_load_items_well_formed items config (values : gmap string float_t) :
  (∀ k cfg, (k, cfg) ∈ items →
            phase_value float_of_str config cfg ≠ Some None) →
  NoDup items.*1 →
  (load_items float_of_str items config values).2 = None
  ∧ (∀ k cfg, (k, cfg) ∈ items →
       (load_items float_of_str items config values).1 !! k
       = Store.lookup config cfg.1 cfg.2 ≫= float_of_str)
  ∧ (∀ k, k ∉ items.*1 →
       (load_items float_of_str items config values).1 !! k = values !! k).
Proof.
  revert values. induction items as [|[k0 [s o]] items IH]; intros values H Hnd.
  { split_and!; [done| |done]. by intros k cfg ?%elem_of_nil. }
  rewrite fmap_cons in Hnd. apply NoDup_cons in Hnd as [Hk0 Hnd].
  assert (phase_value float_of_str config (s, o) ≠ Some None) as H0
    by (apply (H k0); left).
  assert (∀ k cfg, (k, cfg) ∈ items
           → phase_value float_of_str config cfg ≠ Some None) as Ht
    by (intros k cfg Hin; apply (H k); by right).
  rewrite scan_load_items_cons. unfold phase_value in H0. simpl in H0.
  destruct (Store.lookup config s o) as [raw|] eqn:Hl; simpl in H0;
    [destruct (float_of_str raw) as [v|] eqn:Hv; [|done]|].
  - destruct (IH (<[k0:=v]> values) Ht Hnd) as (He & Hin & Hout).
    split_and!; [done| |].
    + intros k cfg [[= -> ->]|Hk]%elem_of_cons.
      * rewrite Hout by done. simpl. rewrite Hl. simpl.
        by rewrite lookup_insert_eq.
      * by apply Hin.
    + intros k [Hne Hk]%not_elem_of_cons. rewrite Hout by done.
      by rewrite lookup_insert_ne.
  - destruct (IH (delete k0 values) Ht Hnd) as (He & Hin & Hout).
    split_and!; [done| |].
    + intros k cfg [[= -> ->]|Hk]%elem_of_cons.
      * rewrite Hout by done. simpl. rewrite Hl. simpl.
        by rewrite lookup_delete_eq.
      * by apply Hin.
    + intros k [Hne Hk]%not_elem_of_cons. rewrite Hout by done.
      by rewrite lookup_delete_ne.
Qed.

Lemma scan_load_items_malformed items config (values : gmap string float_t) :
  (∃ k cfg, (k, cfg) ∈ items
            ∧ phase_value float_of_str config cfg = Some None) →
  (load_items float_of_str items config values).2
  = Some (ValueError "could not convert string to float").
Proof.
  revert values. induction items as [|[k0 [s o]] items IH];
    intros values (k & cfg & Hin & Hbad).
  { by apply elem_of_nil in Hin. }
  rewrite scan_load_items_cons.
  destruct (Store.lookup config s o) as [raw|] eqn:Hl;
    [destruct (float_of_str raw) as [v|] eqn:Hv; [|done]|];
    apply IH; exists k, cfg; (split; [|done]);
    apply elem_of_cons in Hin as [[= -> ->]|Hin]; try done;
    unfold phase_value in Hbad; simpl in Hbad; rewrite Hl in Hbad;
    simpl in Hbad; congruence.
Qed.

Lemma scan_load_items_first_malformed before k cfg after config
    (values : gmap string float_t) :
  (∀ k' cfg', (k', cfg') ∈ before →
              phase_value float_of_str config cfg' ≠ Some None) →
  phase_value float_of_str config cfg = Some None →
  NoDup before.*1 →
  let r := load_items float_of_str (before ++ (k, cfg) :: after) config values in
  r.2 = Some (ValueError "could not convert string to float")
  ∧ (∀ k' cfg', (k', cfg') ∈ before →
       r.1 !! k' = Store.lookup config cfg'.1 cfg'.2 ≫= float_of_str)
  ∧ (∀ k', k' ∉ before.*1 → r.1 !! k' = values !! k').
Proof.
  intros Hbefore Hbad. cbv zeta. revert values Hbefore.
  induction before as [|[k0 [s o]] before IH]; intros values H Hnd.
  { destruct cfg as [s o]. rewrite app_nil_l, scan_load_items_cons.
    unfold phase_value in Hbad. simpl in Hbad.
    destruct (Store.lookup config s o) as [raw|]; [|done]. simpl in Hbad.
    destruct (float_of_str raw); [done|].
    split_and!; [done| |done]. by intros k' cfg' ?%elem_of_nil. }
  rewrite fmap_cons in Hnd. apply NoDup_cons in Hnd as [Hk0 Hnd].
  assert (phase_value float_of_str config (s, o) ≠ Some None) as H0
    by (apply (H k0); left).
  assert (∀ k' cfg', (k', cfg') ∈ before
           → phase_value float_of_str config cfg' ≠ Some None) as Ht
    by (intros k' cfg' Hin; apply (H k'); by right).
  rewrite <-app_comm_cons, scan_load_items_cons.
  unfold phase_value in H0. simpl in H0.
  destruct (Store.lookup config s o) as [raw|] eqn:Hl; simpl in H0;
    [destruct (float_of_str raw) as [v|] eqn:Hv; [|done]|].
  - destruct (IH (<[k0:=v]> values) Ht Hnd) as (He & Hin & Hout).
    split_and!; [done| |].
    + intros k' cfg' [[= -> ->]|Hk]%elem_of_cons.
      * rewrite Hout by done. simpl. rewrite Hl. simpl.
        by rewrite lookup_insert_eq.
      * by apply Hin.
    + intros k' [Hne Hk]%not_elem_of_cons. rewrite Hout by done.
      by rewrite lookup_insert_ne.
  - destruct (IH (delete k0 values) Ht Hnd) as (He & Hin & Hout).
    split_and!; [done| |].
    + intros k' cfg' [[= -> ->]|Hk]%elem_of_cons.
      * rewrite Hout by done. simpl. rewrite Hl. simpl.
        by rewrite lookup_delete_eq.
      * by apply Hin.
    + intros k' [Hne Hk]%not_elem_of_cons. rewrite Hout by done.
      by rewrite lookup_delete_ne.
Qed.

Lemma scan_load_fst self config :
  (load float_of_str self config).1
  = mk (section self)
       (load_items float_of_str __ITEM_2_CONFIG config (values self)).1.
Proof. unfold load. by destruct (load_items _ _ _ _). Qed.

Lemma scan_load_snd self config :
  (load float_of_str self config).2
  = (load_items float_of_str __ITEM_2_CONFIG config (values self)).2.
Proof. unfold load. by destruct (load_items _ _ _ _). Qed.

(** No stored value is malformed: [load] raises nothing, caches the values
    that are present and drops the cached value of each phase whose value
    is absent. *)
Lemma scan_load_well_formed self config :
  (∀ k cfg, (k, cfg) ∈ __ITEM_2_CONFIG →
            phase_value float_of_str config cfg ≠ Some None) →
  (load float_of_str self config).2 = None
  ∧ ∀ k cfg, (k, cfg) ∈ __ITEM_2_CONFIG →
      values (load float_of_str self config).1 !! k
      = Store.lookup config cfg.1 cfg.2 ≫= float_of_str.
Proof.
  intros H. rewrite scan_load_fst, scan_load_snd. simpl.
  destruct (scan_load_items_well_formed __ITEM_2_CONFIG config (values self) H)
    as (He & Hin & _); [by_compute|done].
Qed.

(** A stored value that is present and malformed makes [load] raise the
    [ValueError] of [float]. *)
Lemma scan_load_malformed self config :
  (∃ k cfg, (k, cfg) ∈ __ITEM_2_CONFIG
            ∧ phase_value float_of_str config cfg = Some None) →
  (load float_of_str self config).2
  = Some (ValueError "could not convert string to float").
Proof. intros H. rewrite scan_load_snd. by apply scan_load_items_malformed. Qed.

(** The first malformed phase, in the order of the table: [load] raises
    there, after updating the phases before it and nothing else. *)
Lemma scan_load_first_malformed self config before k cfg after :
  __ITEM_2_CONFIG = before ++ (k, cfg) :: after →
  (∀ k' cfg', (k', cfg') ∈ before →
              phase_value float_of_str config cfg' ≠ Some None) →
  phase_value float_of_str config cfg = Some None →
  (load float_of_str self config).2
  = Some (ValueError "could not convert string to float")
  ∧ (∀ k' cfg', (k', cfg') ∈ before →
       values (load float_of_str self config).1 !! k'
       = Store.lookup config cfg'.1 cfg'.2 ≫= float_of_str)
  ∧ (∀ k', k' ∉ before.*1 →
       values (load float_of_str self config).1 !! k' = values self !! k').
Proof.
  intros Hsplit Hbefore Hbad. rewrite scan_load_fst, scan_load_snd.
  cbn [values]. rewrite Hsplit.
  apply scan_load_items_first_malformed; [done..|].
  assert (NoDup __ITEM_2_CONFIG.*1) as Hnd by by_compute.
  rewrite Hsplit, fmap_app in Hnd. by apply NoDup_app in Hnd as [? _].
Qed.

End scantimes_facts.

(** ** The Calibration Record *)

Section calibration_facts.
Import Py _PaperworkScannerCalibration.

Lemma swap_min_max (a b : Z) :
  (if (a >? b)%Z then (b, a) else (a, b)) = (Z.min a b, Z.max a b).
Proof. destruct (Z.gtb_spec a b); f_equal; lia. Qed.

(** [load] when the four coordinates are stored and are integers: the
    outcome depends on the stored resolution only. *)
Lemma calibration_load_coords self config sax say sbx sby ax ay bx by_ :
  Store.lookup config "Scanner" "Calibration_Pt_A_X" = Some sax →
  Store.lookup config "Scanner" "Calibration_Pt_A_Y" = Some say →
  Store.lookup config "Scanner" "Calibration_Pt_B_X" = Some sbx →
  Store.lookup config "Scanner" "Calibration_Pt_B_Y" = Some sby →
  int sax = Ok ax → int say = Ok ay → int sbx = Ok bx → int sby = Ok by_ →
  let points := ((Z.min ax bx, Z.min ay by_), (Z.max ax bx, Z.max ay by_)) in
  load self config =
  match Store.lookup config "Scanner" "Calibration_Resolution" with
  | None => (mk (section self) (Some (DEFAULT_CALIBRATION_RESOLUTION, points)), None)
  | Some sr =>
      match int sr with
      | Ok r => (mk (section self) (Some (r, points)), None)
      | Raise e => (self, Some e)
      end
  end.
Proof.
  intros Hax Hay Hbx Hby Iax Iay Ibx Iby points.
  unfold load, load_try.
  rewrite (get_present _ _ _ _ Hax), (get_present _ _ _ _ Hay),
    (get_present _ _ _ _ Hbx), (get_present _ _ _ _ Hby).
  simpl. rewrite Iax, Iay, Ibx, Iby. simpl.
  rewrite !swap_min_max.
  destruct (Store.lookup config "Scanner" "Calibration_Resolution")
    as [sr|] eqn:Hr.
  - rewrite (get_present _ _ _ _ Hr). simpl.
    destruct (int sr) as [r|e] eqn:Ir; simpl; [done|].
    rewrite (int_not_missing _ _ Ir). simpl.
    by rewrite (int_not_missing _ _ Ir).
  - destruct (get_absent _ _ _ Hr) as (e & -> & He). simpl. by rewrite He.
Qed.

End calibration_facts.

(** ** The Date Setting *)

Section date_facts.
Import Py _PaperworkDate.

Lemma setting_load_value self config :
  date_setting_built self →
  PaperworkSetting.value (PaperworkSetting.load (setting self) config)
  = date_stored self config.
Proof.
  intros [Hd Hc]. unfold PaperworkSetting.load, date_stored. simpl.
  rewrite Hd, Hc.
  destruct (Store.lookup _ _ _) as [raw|] eqn:Hl.
  - by rewrite (get_present _ _ _ _ Hl).
  - by destruct (get_absent _ _ _ Hl) as (e & -> & He).
Qed.

Lemma date_load_built self config now :
  date_setting_built self → date_setting_built (load self config now).1.
Proof.
  intros [Hd Hc]. unfold load.
  destruct (PaperworkSetting.value _); [destruct (datetime.strptime_Ymd _)|];
    by split.
Qed.

Lemma date_load_cases self config now :
  date_setting_built self →
  let self' := (load self config now).1 in
  let raised := (load self config now).2 in
  match date_stored self config with
  | None => value self' = Some (default_value_func self now) ∧ raised = None
  | Some raw =>
      match datetime.strptime_Ymd raw with
      | Ok dt => value self' = Some dt ∧ raised = None
      | Raise e => value self' = value self ∧ raised = Some e
      end
  end.
Proof.
  intros Hb. simpl. unfold load. rewrite (setting_load_value _ _ Hb).
  destruct (date_stored self config) as [raw|]; [|done].
  by destruct (datetime.strptime_Ymd raw).
Qed.

(** [strptime] reads the year, and the second digit of a day between 10
    and 29, in the decimal digits of every script; a month or a day needs
    no leading zero; the date must exist. *)
Lemma strptime_decimal_digits :
  datetime.strptime_Ymd "٢٠١٤-01-05" = Ok (datetime.mk 2014 1 5 0 0 0 0)
  ∧ datetime.strptime_Ymd "2014-1-1٥" = Ok (datetime.mk 2014 1 15 0 0 0 0)
  ∧ datetime.strptime_Ymd "2014-٠1-05"
    = Raise (ValueError "time data does not match format")
  ∧ datetime.strptime_Ymd "2014-02-29"
    = Raise (ValueError "day is out of range for month")
  ∧ datetime.strptime_Ymd "2014-01-05 "
    = Raise (ValueError "unconverted data remains").
Proof. by vm_compute. Qed.

End date_facts.

(** ** base64 and UTF-8 *)

Section codec_facts.
Import Py _PaperworkRecent.

Lemma all_ascii_complete a : a ∈ all_ascii.
Proof.
  unfold all_ascii. apply list_elem_of_fmap. exists (nat_of_ascii a).
  split; [by rewrite ascii_nat_embedding|].
  apply elem_of_seq. pose proof (nat_ascii_bounded a). lia.
Qed.

Lemma forall_ascii (P : ascii → bool) :
  forallb P all_ascii = true → ∀ a, P a = true.
Proof.
  intros H a. rewrite forallb_forall in H. apply H.
  apply list_elem_of_In, all_ascii_complete.
Qed.

Lemma forall_below n (P : N → bool) :
  forallb P (below n) = true → ∀ v, (v < N.of_nat n)%N → P v = true.
Proof.
  intros H v Hv. rewrite forallb_forall in H. apply H.
  apply list_elem_of_In, list_elem_of_fmap. exists (N.to_nat v).
  split; [lia|]. apply elem_of_seq. lia.
Qed.

Lemma forall_ascii_below n (P : ascii → N → bool) :
  forallb (λ a, forallb (P a) (below n)) all_ascii = true →
  ∀ a v, (v < N.of_nat n)%N → P a v = true.
Proof.
  intros H a. apply forall_below. by apply (forall_ascii _ H a).
Qed.

(** A character of the alphabet is not the padding and maps back to its
    value. *)
Lemma table_a2b_b2a v :
  (v < 64)%N →
  (code (table_b2a v) =? code BASE64_PAD)%N = false
  ∧ table_a2b (table_b2a v) = Some v.
Proof.
  intros Hv.
  pose proof (forall_below 64
    (λ v, negb (code (table_b2a v) =? code BASE64_PAD)%N
          && bool_decide (table_a2b (table_b2a v) = Some v))) as H.
  specialize (H ltac:(vm_compute; reflexivity) v Hv). simpl in H.
  apply andb_prop in H as [H1 H2].
  split; [by apply negb_true_iff|by apply bool_decide_eq_true in H2].
Qed.

Lemma byte_parts a :
  (N.shiftr (code a) 2 < 64 ∧ N.shiftr (code a) 4 < 16
   ∧ N.shiftr (code a) 6 < 4 ∧ N.land (code a) 63 < 64)%N
  ∧ ascii_of_N (N.lor (N.shiftl (N.shiftr (code a) 6) 6)
                      (N.land (code a) 63)) = a.
Proof.
  pose proof (forall_ascii
    (λ a, (N.shiftr (code a) 2 <? 64)%N && (N.shiftr (code a) 4 <? 16)%N
          && (N.shiftr (code a) 6 <? 4)%N && (N.land (code a) 63 <? 64)%N
          && bool_decide (ascii_of_N (N.lor (N.shiftl (N.shiftr (code a) 6) 6)
                                        (N.land (code a) 63)) = a))) as H.
  specialize (H ltac:(vm_compute; reflexivity) a). simpl in H.
  repeat (apply andb_prop in H as [H ?]).
  repeat match goal with H : (_ <? _)%N = true |- _ => apply N.ltb_lt in H end.
  by match goal with H : bool_decide _ = true |- _ =>
       apply bool_decide_eq_true in H end.
Qed.

(** The second character of a group and the byte it completes. *)
Lemma join2_spec a h :
  (h < 16)%N →
  (join2 a h < 64)%N
  ∧ ascii_of_N (N.lor (N.shiftl (N.shiftr (code a) 2) 2)
                      (N.shiftr (join2 a h) 4)) = a
  ∧ N.land (join2 a h) 0x0f = h.
Proof.
  intros Hh.
  pose proof (forall_ascii_below 16
    (λ a h, (join2 a h <? 64)%N
            && bool_decide (ascii_of_N (N.lor (N.shiftl (N.shiftr (code a) 2) 2)
                                          (N.shiftr (join2 a h) 4)) = a)
            && bool_decide (N.land (join2 a h) 0x0f = h))) as H.
  specialize (H ltac:(vm_compute; reflexivity) a h Hh). simpl in H.
  repeat (apply andb_prop in H as [H ?]).
  apply N.ltb_lt in H.
  by repeat match goal with H : bool_decide _ = true |- _ =>
       apply bool_decide_eq_true in H end.
Qed.

(** The third character of a group and the byte it completes. *)
Lemma join3_spec b t :
  (t < 4)%N →
  (join3 b t < 64)%N
  ∧ ascii_of_N (N.lor (N.shiftl (N.shiftr (code b) 4) 4)
                      (N.shiftr (join3 b t) 2)) = b
  ∧ N.land (join3 b t) 0x03 = t.
Proof.
  intros Ht.
  pose proof (forall_ascii_below 4
    (λ b t, (join3 b t <? 64)%N
            && bool_decide (ascii_of_N (N.lor (N.shiftl (N.shiftr (code b) 4) 4)
                                          (N.shiftr (join3 b t) 2)) = b)
            && bool_decide (N.land (join3 b t) 0x03 = t))) as H.
  specialize (H ltac:(vm_compute; reflexivity) b t Ht). simpl in H.
  repeat (apply andb_prop in H as [H ?]).
  apply N.ltb_lt in H.
  by repeat match goal with H : bool_decide _ = true |- _ =>
       apply bool_decide_eq_true in H end.
Qed.


(** One character of the alphabet, read by the decoder. *)
Lemma a2b_loop_char v rest quad_pos leftchar pads out :
  (v < 64)%N →
  a2b_loop (table_b2a v :: rest) quad_pos leftchar pads out =
  match quad_pos with
  | 0 => a2b_loop rest 1 v 0 out
  | 1 =>
      a2b_loop rest 2 (N.land v 0x0f) 0
        (out ++ [ascii_of_N (N.lor (N.shiftl leftchar 2) (N.shiftr v 4))])
  | 2 =>
      a2b_loop rest 3 (N.land v 0x03) 0
        (out ++ [ascii_of_N (N.lor (N.shiftl leftchar 4) (N.shiftr v 2))])
  | _ => a2b_loop rest 0 0 0 (out ++ [ascii_of_N (N.lor (N.shiftl leftchar 6) v)])
  end.
Proof.
  intros Hv. destruct (table_a2b_b2a v Hv) as [Hpad Htab].
  cbn [a2b_loop]. by rewrite Hpad, Htab.
Qed.

Lemma a2b_loop_skip l rest quad_pos leftchar pads out :
  Forall skipped l →
  a2b_loop (l ++ rest) quad_pos leftchar pads out
  = a2b_loop rest quad_pos leftchar pads out.
Proof.
  induction 1 as [|c l [Hpad Htab] _ IH]; [done|].
  cbn [app a2b_loop]. by rewrite Hpad, Htab.
Qed.

Lemma a2b_loop_skip_end l s quad_pos leftchar pads out :
  Forall skipped l →
  a2b_loop (s ++ l) quad_pos leftchar pads out
  = a2b_loop s quad_pos leftchar pads out.
Proof.
  intros Hl. revert quad_pos leftchar pads out.
  induction s as [|c s IH]; intros quad_pos leftchar pads out.
  { cbn [app]. rewrite <-(app_nil_r l). by apply a2b_loop_skip. }
  cbn [app a2b_loop].
  destruct (code c =? code BASE64_PAD)%N.
  - by destruct (_ && _).
  - destruct (table_a2b c); [|done]. by destruct quad_pos as [|[|[|?]]].
Qed.

Lemma bspace_skipped c : is_bspace c = true → skipped c.
Proof.
  pose proof (forall_ascii
    (λ c, negb (is_bspace c)
          || (negb (code c =? code BASE64_PAD)%N
              && bool_decide (table_a2b c = None)))) as H.
  specialize (H ltac:(vm_compute; reflexivity) c). simpl in H.
  intros Hc. rewrite Hc in H. simpl in H.
  apply andb_prop in H as [H1 H2].
  split; [by apply negb_true_iff|by apply bool_decide_eq_true in H2].
Qed.

(** Induction on a list three elements at a time. *)
Lemma list_ind3 {A} (P : list A → Prop) :
  P [] → (∀ a, P [a]) → (∀ a b, P [a; b]) →
  (∀ a b c l, P l → P (a :: b :: c :: l)) →
  ∀ l, P l.
Proof.
  intros H0 H1 H2 H3.
  fix IH 1. intros [|a [|b [|c l]]]; [done..|]. apply H3, IH.
Qed.

(** The decoder reads back the groups of [b2a_groups]: after complete
    groups it goes on with the rest of the text, after a padded group it
    stops. *)
Lemma a2b_loop_groups data rest out :
  a2b_loop (b2a_groups data ++ rest) 0 0 0 out =
  if decide (length data `mod` 3 = 0)
  then a2b_loop rest 0 0 0 (out ++ data)
  else Ok (out ++ data).
Proof.
  revert out. induction data as [|a|a b|a b c data IH] using list_ind3;
    intros out.
  - simpl. by rewrite app_nil_r.
  - destruct (byte_parts a) as ((Ha2 & _) & _).
    destruct (join2_spec a 0) as (Hj & Hb & _); [lia|].
    unfold join2 in Hj, Hb. rewrite N.lor_0_r in Hj, Hb.
    cbn [b2a_groups app].
    rewrite a2b_loop_char, a2b_loop_char by done. rewrite Hb.
    reflexivity.
  - destruct (byte_parts a) as ((Ha2 & _) & _).
    destruct (byte_parts b) as ((_ & Hb4 & _) & _).
    destruct (join2_spec a (N.shiftr (code b) 4)) as (Hj & Ha & Hl); [done|].
    destruct (join3_spec b 0) as (Hj3 & Hb & _); [lia|].
    unfold join2 in Hj, Ha, Hl. unfold join3 in Hj3, Hb.
    rewrite N.lor_0_r in Hj3, Hb.
    cbn [b2a_groups app].
    rewrite a2b_loop_char, a2b_loop_char, a2b_loop_char by done.
    rewrite Ha, Hl, Hb. cbn. by rewrite <-app_assoc.
  - destruct (byte_parts a) as ((Ha2 & _) & _).
    destruct (byte_parts b) as ((_ & Hb4 & _) & _).
    destruct (byte_parts c) as ((_ & _ & Hc6 & Hc63) & Hc).
    destruct (join2_spec a (N.shiftr (code b) 4)) as (Hj & Ha & Hl); [done|].
    destruct (join3_spec b (N.shiftr (code c) 6)) as (Hj3 & Hb & Hl3); [done|].
    unfold join2 in Hj, Ha, Hl. unfold join3 in Hj3, Hb, Hl3.
    cbn [b2a_groups app].
    rewrite a2b_loop_char, a2b_loop_char, a2b_loop_char, a2b_loop_char by done.
    rewrite Ha, Hl, Hb, Hl3, Hc, IH.
    replace (length (a :: b :: c :: data) `mod` 3) with (length data `mod` 3).
    + by rewrite <-!app_assoc.
    + cbn [length].
      replace (S (S (S (length data)))) with (length data + 1 * 3) by lia.
      by rewrite Nat.Div0.mod_add.
Qed.


Lemma encodebytes_chars_nil : encodebytes_chars [] = [].
Proof. reflexivity. Qed.

(** The first chunk and the chunks of the rest. *)
Lemma encodebytes_chars_unfold s :
  s ≠ [] →
  encodebytes_chars s
  = b2a_base64 (take MAXBINSIZE s) ++ encodebytes_chars (drop MAXBINSIZE s).
Proof.
  intros Hs. unfold encodebytes_chars, MAXBINSIZE.
  assert (0 < length s) as Hlen by (destruct s; [done|simpl; lia]).
  assert ((length s + (57 - 1)) `div` 57
          = S ((length (drop 57 s) + (57 - 1)) `div` 57)) as ->.
  { rewrite length_drop.
    destruct (decide (57 ≤ length s)) as [Hge|Hlt].
    - replace (length s + (57 - 1)) with (length s - 57 + (57 - 1) + 1 * 57) by lia.
      rewrite Nat.div_add by lia. apply Nat.add_1_r.
    - replace (length s - 57) with 0 by lia.
      symmetry. apply (Nat.div_unique _ 57 1 (length s - 1)); simpl; lia. }
  cbn [seq fmap list_fmap mjoin list_join].
  rewrite Nat.mul_0_r, drop_0. f_equal.
  rewrite <-fmap_S_seq, <-list_fmap_compose. f_equal.
  apply list_fmap_ext. intros _ k _. simpl.
  rewrite drop_drop. do 3 f_equal. lia.
Qed.

(** [a2b_base64] reads back what [encodebytes] wrote. *)
Lemma a2b_loop_encodebytes s out :
  a2b_loop (encodebytes_chars s) 0 0 0 out = Ok (out ++ s).
Proof.
  remember (length s) as n eqn:Hn. revert s Hn out.
  induction n as [n IH] using lt_wf_ind. intros s -> out.
  destruct (decide (s = [])) as [->|Hs].
  { by rewrite encodebytes_chars_nil, app_nil_r. }
  rewrite encodebytes_chars_unfold by done. unfold b2a_base64.
  rewrite <-app_assoc, a2b_loop_groups.
  assert (0 < length s) as Hlen by (destruct s; [done|simpl; lia]).
  destruct (decide _) as [Hmod|Hmod].
  - rewrite (a2b_loop_skip ["010"%char]).
    + rewrite (IH (length (drop MAXBINSIZE s))); [|rewrite length_drop; unfold MAXBINSIZE; lia|done].
      by rewrite <-app_assoc, take_drop.
    + by repeat constructor.
  - rewrite take_ge; [done|].
    destruct (decide (length s ≤ MAXBINSIZE)); [done|].
    exfalso. apply Hmod. rewrite length_take, Nat.min_l by lia. done.
Qed.

Lemma drop_bspaces_split s :
  ∃ l, s = l ++ drop_bspaces s ∧ Forall skipped l.
Proof.
  induction s as [|c s (l & Hl & Hsk)]; [by exists []|].
  simpl. destruct (is_bspace c) eqn:Hc.
  - exists (c :: l). split; [by rewrite Hl at 1|].
    constructor; [by apply bspace_skipped|done].
  - by exists [].
Qed.

Lemma bytes_strip_chars_split s :
  ∃ l r, s = l ++ bytes_strip_chars s ++ r ∧ Forall skipped l ∧ Forall skipped r.
Proof.
  unfold bytes_strip_chars.
  destruct (drop_bspaces_split s) as (l & Hl & Hsl).
  destruct (drop_bspaces_split (reverse (drop_bspaces s))) as (r & Hr & Hsr).
  exists l, (reverse r). split_and!; [|done|by apply Forall_reverse].
  rewrite Hl at 1. f_equal.
  apply (inj reverse). rewrite reverse_app, !reverse_involutive. done.
Qed.

(** Whitespace around the text does not change what is decoded. *)
Lemma a2b_loop_bytes_strip s :
  a2b_loop (bytes_strip_chars s) 0 0 0 [] = a2b_loop s 0 0 0 [].
Proof.
  destruct (bytes_strip_chars_split s) as (l & r & Hs & Hl & Hr).
  rewrite Hs at 2. by rewrite a2b_loop_skip, a2b_loop_skip_end.
Qed.

(** [decodebytes(encodebytes(b).strip()) == b] *)
Lemma decodebytes_encodebytes b :
  decodebytes (bytes_strip (encodebytes b)) = Ok b.
Proof.
  unfold decodebytes, bytes_strip, encodebytes.
  rewrite !list_ascii_of_string_of_list_ascii.
  rewrite a2b_loop_bytes_strip, a2b_loop_encodebytes. simpl.
  by rewrite string_of_list_ascii_of_string.
Qed.


(** Text below U+0080 is well-formed UTF-8. *)
Lemma utf8_valid_low l : Forall (λ c, (code c < 128)%N) l → utf8_valid l = true.
Proof.
  induction 1 as [|c l Hc _ IH]; [done|].
  cbn [utf8_valid]. by apply N.ltb_lt in Hc as ->.
Qed.

Lemma table_b2a_low v : (code (table_b2a v) < 128)%N.
Proof.
  unfold table_b2a, code.
  destruct (N.ltb_spec v 26); [rewrite N_ascii_embedding; lia|].
  destruct (N.ltb_spec v 52); [rewrite N_ascii_embedding; lia|].
  destruct (N.ltb_spec v 62); [rewrite N_ascii_embedding; lia|].
  by destruct (v =? 62)%N.
Qed.

Lemma b2a_groups_low data : Forall (λ c, (code c < 128)%N) (b2a_groups data).
Proof.
  induction data as [|a|a b|a b c data IH] using list_ind3;
    cbn [b2a_groups]; repeat constructor; try apply table_b2a_low; done.
Qed.

Lemma encodebytes_chars_low s :
  Forall (λ c, (code c < 128)%N) (encodebytes_chars s).
Proof.
  unfold encodebytes_chars. apply Forall_join, Forall_fmap, Forall_forall.
  intros k _. simpl. unfold b2a_base64. apply Forall_app.
  split; [apply b2a_groups_low|by repeat constructor].
Qed.

Lemma bytes_strip_chars_Forall (P : ascii → Prop) s :
  Forall P s → Forall P (bytes_strip_chars s).
Proof.
  destruct (bytes_strip_chars_split s) as (l & r & Hs & _).
  rewrite Hs at 1. by intros (_ & (? & _)%Forall_app)%Forall_app.
Qed.

(** [update] never fails to produce the text of an entry. *)
Lemma encode_entry_ok v : encode_entry v = Ok (bytes_strip (encodebytes v)).
Proof.
  unfold encode_entry, decode_utf8, encode_utf8, bytes_strip, encodebytes.
  rewrite !list_ascii_of_string_of_list_ascii.
  by rewrite utf8_valid_low
    by apply bytes_strip_chars_Forall, encodebytes_chars_low.
Qed.

(** [load] reads back the entry [update] wrote. *)
Lemma decode_encode_entry v :
  well_formed v → decode_entry (bytes_strip (encodebytes v)) = Ok v.
Proof.
  intros Hv. unfold decode_entry, encode_utf8.
  rewrite decodebytes_encodebytes. simpl. unfold decode_utf8.
  by rewrite Hv.
Qed.

End codec_facts.

(** ** The Recent List and the store *)

Section recent_store_facts.
Import Py _PaperworkRecent.

Lemma key_inj self i j : key self i = key self j → i = j.
Proof.
  unfold key, str_int. intros H.
  apply (inj (String.app _)), (inj (String.app _)) in H.
  apply (inj pretty) in H. lia.
Qed.

Lemma key_push self v idx : key (push self v) idx = key self idx.
Proof. unfold key. by destruct (push_fields self v) as (_ & -> & _). Qed.

Lemma section_push self v : section (push self v) = section self.
Proof. by destruct (push_fields self v) as (-> & _). Qed.

(** *** [update] *)

Lemma update_loop_spec self idx vs config :
  let config' := (update_loop self idx vs config).1 in
  (update_loop self idx vs config).2 = None
  ∧ (∀ i v, vs !! i = Some v →
       Store.lookup config' (section self) (key self (idx + i))
       = Some (stored_text v))
  ∧ (∀ s k, (s = section self → ∀ i, i < length vs → k ≠ key self (idx + i)) →
       Store.lookup config' s k = Store.lookup config s k).
Proof.
  revert idx config. induction vs as [|v vs IH]; intros idx config; simpl.
  { split_and!; [done| |done]. by intros i v ?. }
  rewrite encode_entry_ok.
  destruct (IH (S idx) (Store.set config (section self) (key self idx)
                          (stored_text v))) as (He & Hin & Hout).
  split_and!; [done| |].
  - intros [|i] w Hw; simpl in Hw.
    + injection Hw as <-. rewrite Nat.add_0_r, Hout, lookup_set_eq; [done|].
      intros _ i _ Hk. apply key_inj in Hk. lia.
    + replace (idx + S i) with (S idx + i) by lia. by apply Hin.
  - intros s k Hk. rewrite Hout.
    + apply lookup_set_ne. intros [= <- <-].
      apply (Hk eq_refl 0); [lia|]. by rewrite Nat.add_0_r.
    + intros Hs i Hi. replace (S idx + i) with (idx + S i) by lia.
      apply Hk; [done|lia].
Qed.


(** *** [load] *)

Lemma a2b_loop_not_missing s quad_pos leftchar pads out e :
  a2b_loop s quad_pos leftchar pads out = Raise e → Store.is_missing e = false.
Proof.
  revert quad_pos leftchar pads out.
  induction s as [|c s IH]; intros quad_pos leftchar pads out.
  - by destruct quad_pos as [|[|?]]; intros [= <-].
  - cbn [a2b_loop]. destruct (_ =? _)%N.
    + destruct (_ && _); [done|apply IH].
    + destruct (table_a2b c); [|apply IH].
      destruct quad_pos as [|[|[|?]]]; apply IH.
Qed.

Lemma decode_entry_not_missing raw e :
  decode_entry raw = Raise e → Store.is_missing e = false.
Proof.
  unfold decode_entry, decodebytes, decode_utf8.
  destruct (a2b_loop _ _ _ _ _) as [out|e'] eqn:Ha; simpl.
  - destruct (utf8_valid _); [done|]. by intros [= <-].
  - intros [= <-]. by apply a2b_loop_not_missing in Ha.
Qed.

Lemma load_loop_step fuel self config idx :
  load_loop (S fuel) self config idx =
  match Store.lookup config (section self) (key self idx) with
  | None => Some (self, None)
  | Some raw =>
      match decode_entry raw with
      | Ok v => load_loop fuel (push self v) config (S idx)
      | Raise e => Some (self, Some e)
      end
  end.
Proof.
  cbn [load_loop].
  destruct (Store.lookup _ _ _) as [raw|] eqn:Hl.
  - rewrite (get_present _ _ _ _ Hl). simpl.
    destruct (decode_entry raw) as [v|e] eqn:Hd; [done|].
    by rewrite (decode_entry_not_missing _ _ Hd).
  - destruct (get_absent _ _ _ Hl) as (e & -> & He). simpl. by rewrite He.
Qed.

(** Two runs of the loop that both reach its end agree. *)
Lemma load_loop_agree fuel1 fuel2 self config idx r1 r2 :
  load_loop fuel1 self config idx = Some r1 →
  load_loop fuel2 self config idx = Some r2 →
  r1 = r2.
Proof.
  revert fuel2 self idx. induction fuel1 as [|fuel1 IH];
    intros [|fuel2] self idx; try done.
  rewrite !load_loop_step.
  destruct (Store.lookup _ _ _); [|congruence].
  destruct (decode_entry _); [apply IH|congruence].
Qed.

(** Options at consecutive indices are so many options of the section. *)
Lemma keys_present_size self config n :
  (∀ j, j < n →
     is_Some (Store.lookup config (section self) (key self j))) →
  n ≤ size (default ∅ (config !! section self)).
Proof.
  intros H. set (m := default ∅ (config !! section self)).
  assert (∀ j, j < n → key self j ∈ dom m) as Hdom.
  { intros j Hj. destruct (H j Hj) as [v Hv]. apply elem_of_dom.
    unfold Store.lookup in Hv. unfold m.
    destruct (config !! section self) as [opts|]; [|done]. by exists v. }
  rewrite <-size_dom.
  assert (list_to_set (key self <$> seq 0 n) ⊆ dom m) as Hsub.
  { intros k (j & -> & Hj%elem_of_seq)%elem_of_list_to_set%list_elem_of_fmap.
    apply Hdom. lia. }
  apply subseteq_size in Hsub.
  rewrite size_list_to_set, length_fmap, length_seq in Hsub; [done|].
  apply NoDup_fmap_2_strong; [|apply NoDup_seq].
  intros i j _ _. apply key_inj.
Qed.

(** The loop reaches its end within [load_fuel] turns. *)
Lemma load_loop_ends fuel self config idx :
  (∀ j, j < idx →
     is_Some (Store.lookup config (section self) (key self j))) →
  fuel + idx = S (size (default ∅ (config !! section self))) →
  is_Some (load_loop fuel self config idx).
Proof.
  revert self idx. induction fuel as [|fuel IH]; intros self idx Hpre Hfuel.
  { apply keys_present_size in Hpre. simpl in Hfuel. lia. }
  rewrite load_loop_step.
  destruct (Store.lookup _ _ _) as [raw|] eqn:Hl; [|done].
  destruct (decode_entry raw) as [v|e]; [|done].
  apply IH.
  - rewrite section_push. intros j Hj. rewrite key_push.
    destruct (decide (j = idx)) as [->|]; [by rewrite Hl|].
    apply Hpre. lia.
  - rewrite section_push. lia.
Qed.

Lemma load_total self config :
  ∃ r, load_loop (load_fuel (set_value self []) config)
         (set_value self []) config 0 = Some r
       ∧ load self config = r.
Proof.
  unfold load.
  destruct (load_loop_ends (load_fuel (set_value self []) config)
              (set_value self []) config 0) as [r Hr].
  - intros j Hj. lia.
  - unfold load_fuel. lia.
  - exists r. by rewrite Hr.
Qed.

(** Any run of the loop that reaches its end gives the result of [load]. *)
Lemma load_by_fuel fuel self config r :
  load_loop fuel (set_value self []) config 0 = Some r →
  load self config = r.
Proof.
  intros H. destruct (load_total self config) as (r' & Hr' & ->).
  by apply (load_loop_agree _ _ _ _ _ _ _ Hr' H).
Qed.

(** The loop over entries written by [update] pushes them in order and
    stops at the first index with no entry. *)
Lemma load_loop_entries vs self config idx :
  (∀ i v, vs !! i = Some v →
     well_formed v
     ∧ Store.lookup config (section self) (key self (idx + i))
       = Some (stored_text v)) →
  Store.lookup config (section self) (key self (idx + length vs)) = None →
  load_loop (S (length vs)) self config idx = Some (push_all self vs, None).
Proof.
  revert self idx. induction vs as [|v vs IH]; intros self idx Hin Hend.
  { rewrite load_loop_step. simpl in Hend. rewrite Nat.add_0_r in Hend.
    by rewrite Hend. }
  rewrite load_loop_step.
  destruct (Hin 0 v eq_refl) as [Hwf Hl]. rewrite Nat.add_0_r in Hl.
  rewrite Hl. unfold stored_text. rewrite decode_encode_entry by done.
  simpl. apply IH.
  - intros i w Hw. rewrite section_push, key_push.
    replace (S idx + i) with (idx + S i) by lia. by apply Hin.
  - rewrite section_push, key_push.
    replace (S idx + length vs) with (idx + length (v :: vs)) by (simpl; lia).
    done.
Qed.

End recent_store_facts.

(** ** The Device Initializer *)

Section scanner_facts.
Import Py pyinsane2.
Context {world dev : Type} (drv : driver world dev).
Implicit Types (config : registry) (w : world) (exc : exn).

Lemma bind_ok {A B} (m : M world A) (k : A → M world B) w a w' :
  m w = (Ok a, w') → (m ≫= k) w = k a w'.
Proof. intros H. unfold mbind, M_bind. by rewrite H. Qed.

Lemma bind_raise {A B} (m : M world A) (k : A → M world B) w e w' :
  m w = (Raise e, w') → (m ≫= k) w = (Raise e, w').
Proof. intros H. unfold mbind, M_bind. by rewrite H. Qed.

(** The resolution paragraph when the device has the option and rejects
    the configured value. *)
Lemma set_resolution_rejected config dev_ w opts w1 msg w2 v w3 r :
  drv.(options) dev_ w = (Ok opts, w1) →
  "resolution" ∈ opts →
  drv.(set_scanner_opt) dev_ "resolution" [Int config.(scanner_resolution)] w1
    = (Raise (PyinsaneException msg), w2) →
  drv.(option_value) dev_ "resolution" w2 = (Ok v, w3) →
  int_optval v = Ok r →
  set_resolution drv config dev_ w = (Ok r, w3).
Proof.
  intros Hopts Hin Hset Hval Hint. unfold set_resolution.
  rewrite (bind_ok _ _ _ _ _ Hopts).
  rewrite bool_decide_false by (by intros ?).
  unfold try_except_PyinsaneException.
  rewrite (bind_raise _ _ _ _ _ Hset).
  rewrite (bind_ok _ _ _ _ _ Hval). by rewrite Hint.
Qed.

(** The resolution paragraph when the device accepts the configured
    value. *)
Lemma set_resolution_accepted config dev_ w opts w1 w2 :
  drv.(options) dev_ w = (Ok opts, w1) →
  "resolution" ∈ opts →
  drv.(set_scanner_opt) dev_ "resolution" [Int config.(scanner_resolution)] w1
    = (Ok tt, w2) →
  set_resolution drv config dev_ w = (Ok config.(scanner_resolution), w2).
Proof.
  intros Hopts Hin Hset. unfold set_resolution.
  rewrite (bind_ok _ _ _ _ _ Hopts).
  rewrite bool_decide_false by (by intros ?).
  unfold try_except_PyinsaneException.
  by rewrite (bind_ok _ _ _ _ _ Hset).
Qed.

(** [_get_scanner] returns the device and the resolution of the
    resolution paragraph when its other paragraphs complete. *)
Lemma _get_scanner_steps config devid preferred_sources w dev_ w1 w2 r w3 w4 w5 :
  drv.(Scanner) devid w = (Ok dev_, w1) →
  set_source drv config dev_ preferred_sources w1 = (Ok tt, w2) →
  set_resolution drv config dev_ w2 = (Ok r, w3) →
  set_mode drv dev_ w3 = (Ok tt, w4) →
  maximize drv dev_ w4 = (Ok tt, w5) →
  _get_scanner drv config devid preferred_sources w = (Ok (dev_, r), w5).
Proof.
  intros H1 H2 H3 H4 H5. unfold _get_scanner.
  rewrite (bind_ok _ _ _ _ _ H1), (bind_ok _ _ _ _ _ H2),
    (bind_ok _ _ _ _ _ H3), (bind_ok _ _ _ _ _ H4), (bind_ok _ _ _ _ _ H5).
  done.
Qed.

(** *** [get_scanner] *)

Lemma get_scanner_first_ok config preferred_sources w r w1 :
  _get_scanner drv config config.(scanner_devid) preferred_sources w
    = (Ok r, w1) →
  get_scanner drv config preferred_sources w = (Ok r, w1).
Proof. intros H. unfold get_scanner. by rewrite H. Qed.

Lemma get_scanner_uncaught config preferred_sources w exc w1 :
  _get_scanner drv config config.(scanner_devid) preferred_sources w
    = (Raise exc, w1) →
  is_KeyError_or_PyinsaneException exc = false →
  get_scanner drv config preferred_sources w = (Raise exc, w1).
Proof. intros H Hexc. unfold get_scanner. by rewrite H, Hexc. Qed.

Lemma get_scanner_fallback config preferred_sources w exc w1 :
  _get_scanner drv config config.(scanner_devid) preferred_sources w
    = (Raise exc, w1) →
  is_KeyError_or_PyinsaneException exc = true →
  get_scanner drv config preferred_sources w =
  try_except_PyinsaneException (fallback drv config preferred_sources exc)
    (λ _, raise exc) w1.
Proof. intros H Hexc. unfold get_scanner. by rewrite H, Hexc. Qed.

(** Not exactly one candidate: the original exception. *)
Lemma fallback_not_single config preferred_sources exc w devices w1 :
  drv.(get_devices) w = (Ok devices, w1) →
  length (List.filter (not_v4l drv) devices) ≠ 1 →
  try_except_PyinsaneException (fallback drv config preferred_sources exc)
    (λ _, raise exc) w = (Raise exc, w1).
Proof.
  intros Hd Hlen. unfold try_except_PyinsaneException, fallback.
  rewrite (bind_ok _ _ _ _ _ Hd).
  destruct (List.filter _ devices) as [|x [|y l]]; [|done|];
    unfold raise; by destruct exc.
Qed.

(** Exactly one candidate: the outcome of configuring it, except that a
    [PyinsaneException] is replaced by the original exception. *)
Lemma fallback_single config preferred_sources exc w devices w1 x :
  drv.(get_devices) w = (Ok devices, w1) →
  List.filter (not_v4l drv) devices = [x] →
  try_except_PyinsaneException (fallback drv config preferred_sources exc)
    (λ _, raise exc) w =
  match _get_scanner drv config (Some (drv.(name) x)) preferred_sources w1 with
  | (Raise (PyinsaneException _), w2) => (Raise exc, w2)
  | r => r
  end.
Proof.
  intros Hd Hx. unfold try_except_PyinsaneException, fallback.
  rewrite (bind_ok _ _ _ _ _ Hd), Hx. done.
Qed.

(** The enumeration fails with a [PyinsaneException]: the original
    exception. *)
Lemma fallback_enumeration_fails config preferred_sources exc w msg w1 :
  drv.(get_devices) w = (Raise (PyinsaneException msg), w1) →
  try_except_PyinsaneException (fallback drv config preferred_sources exc)
    (λ _, raise exc) w = (Raise exc, w1).
Proof.
  intros Hd. unfold try_except_PyinsaneException, fallback.
  by rewrite (bind_raise _ _ _ _ _ Hd).
Qed.

End scanner_facts.

(** * The claims of the specification *)

Section claim_recent_push.
Import Py _PaperworkRecent.

(** C1. Recent List [push].  A value whose trimmed form is already in the
    list leaves the object unchanged (for a list built by pushes this is any
    value equal to an entry); so does a value made of whitespace only.  Pushes
    preserve "at most [max_length] entries, no duplicates", which therefore
    holds after any run of pushes on a new object.  Pushing values whose
    trimmed forms are new, non-empty and pairwise distinct leaves the last
    [max_length] entries of the extended list, in push order: the oldest
    entries are evicted first; on a new object, more than [max_length] such
    values leave exactly the [max_length] most recently pushed ones. *)
Theorem recent_push_spec :
  (∀ r v, strip v ∈ value r → push r v = r)
  ∧ (∀ r v, Forall trimmed (value r) → v ∈ value r → push r v = r)
  ∧ (∀ r v, whitespace_only v = true → push r v = r)
  ∧ (∀ r vs, bounded_nodup r → bounded_nodup (push_all r vs))
  ∧ (∀ s b m vs,
       let r := push_all (init s b m) vs in
       length (value r) ≤ m ∧ NoDup (value r) ∧ Forall trimmed (value r))
  ∧ (∀ r vs,
       length (value r) ≤ max_length r →
       NoDup (value r ++ (strip <$> vs)) → "" ∉ strip <$> vs →
       value (push_all r vs) =
         drop (length (value r ++ (strip <$> vs)) - max_length r)
              (value r ++ (strip <$> vs)))
  ∧ (∀ s b m vs,
       NoDup (strip <$> vs) → "" ∉ strip <$> vs → m < length vs →
       let r := push_all (init s b m) vs in
       value r = drop (length vs - m) (strip <$> vs) ∧ length (value r) = m).
Proof.
  split_and!.
  - apply push_present.
  - intros r v Hall Hin. apply push_present.
    rewrite Forall_forall in Hall. by rewrite (proj1 (Hall v Hin)).
  - intros r v H. by apply push_blank, strip_whitespace_only.
  - apply push_all_bounded_nodup.
  - intros s b m vs r.
    destruct (push_all_bounded_nodup (init s b m) vs) as [Hlen Hnd].
    { split; [simpl; lia|constructor]. }
    split_and!; [|done|].
    + unfold r. by rewrite push_all_max_length in Hlen.
    + apply push_all_trimmed. constructor.
  - apply push_all_distinct.
  - intros s b m vs Hnd Hne Hlt r. unfold r.
    rewrite push_all_distinct by (simpl; done || lia).
    simpl. rewrite length_fmap. split; [done|].
    rewrite length_drop, length_fmap. lia.
Qed.

Lemma recent_push_spec_witness :
  value (push_all (init "recent" "documents" 3)
           ["a"; " b"; "a "; "c "; "  "; "d"]) = ["b"; "c"; "d"]
  ∧ value (push_all (init "recent" "documents" 3) [" b"; "c "; "e"; "d"])
    = ["c"; "e"; "d"].
Proof.
  split; [reflexivity|].
  destruct recent_push_spec as (_ & _ & _ & _ & _ & _ & H).
  refine (proj1 (H "recent" "documents" 3 [" b"; "c "; "e"; "d"] _ _ _)).
  - by_compute.
  - by_compute.
  - simpl. lia.
Defined.

End claim_recent_push.

Section claim_calibration.
Import Py _PaperworkScannerCalibration.

(** C2. Calibration Record [load].  When the four coordinate keys are
    present and parse as integers, [load] stores the record with each axis
    ordered independently: A.x = min, B.x = max, A.y = min, B.y = max, hence
    A.x ≤ B.x and A.y ≤ B.y, whatever the order of the persisted
    coordinates.  It does so whenever the resolution key is absent (200 is
    used) or is an integer; otherwise [load] raises and leaves the object,
    and so an ordered record, as it was. *)
Theorem calibration_load_ordered self config sax say sbx sby ax ay bx by_ :
  Store.lookup config "Scanner" "Calibration_Pt_A_X" = Some sax →
  Store.lookup config "Scanner" "Calibration_Pt_A_Y" = Some say →
  Store.lookup config "Scanner" "Calibration_Pt_B_X" = Some sbx →
  Store.lookup config "Scanner" "Calibration_Pt_B_Y" = Some sby →
  int sax = Ok ax → int say = Ok ay → int sbx = Ok bx → int sby = Ok by_ →
  let self' := (load self config).1 in
  let raised := (load self config).2 in
  (raised = None →
     ∃ resolution a_x a_y b_x b_y,
       value self' = Some (resolution, ((a_x, a_y), (b_x, b_y)))
       ∧ a_x = Z.min ax bx ∧ b_x = Z.max ax bx
       ∧ a_y = Z.min ay by_ ∧ b_y = Z.max ay by_
       ∧ (a_x ≤ b_x)%Z ∧ (a_y ≤ b_y)%Z)
  ∧ (raised = None ↔
       match Store.lookup config "Scanner" "Calibration_Resolution" with
       | None => True
       | Some sr => ∃ r, int sr = Ok r
       end)
  ∧ (raised ≠ None → self' = self)
  ∧ (calibration_ordered (value self) → calibration_ordered (value self')).
Proof.
  intros Hax Hay Hbx Hby Iax Iay Ibx Iby. simpl.
  rewrite (calibration_load_coords self config _ _ _ _ _ _ _ _
             Hax Hay Hbx Hby Iax Iay Ibx Iby).
  destruct (Store.lookup config "Scanner" "Calibration_Resolution") as [sr|];
    [destruct (int sr) as [r|e]|]; simpl.
  - split_and!; [|naive_solver|done|intros _; lia].
    intros _. eexists _, _, _, _, _. split_and!; try done; lia.
  - split_and!; [done| |done|done].
    split; [done|]. by intros [r ?].
  - split_and!; [|done|done|intros _; lia].
    intros _. eexists _, _, _, _, _. split_and!; try done; lia.
Qed.

Lemma calibration_load_ordered_witness :
  let config :=
    Store.set (Store.set (Store.set (Store.set ∅
      "Scanner" "Calibration_Pt_A_X" "120")
      "Scanner" "Calibration_Pt_A_Y" "15")
      "Scanner" "Calibration_Pt_B_X" "40")
      "Scanner" "Calibration_Pt_B_Y" "300" in
  ∃ resolution a_x a_y b_x b_y,
    value (load (init "Scanner") config).1
    = Some (resolution, ((a_x, a_y), (b_x, b_y)))
    ∧ a_x = 40%Z ∧ b_x = 120%Z ∧ a_y = 15%Z ∧ b_y = 300%Z
    ∧ (a_x ≤ b_x)%Z ∧ (a_y ≤ b_y)%Z.
Proof.
  intros config.
  exact (proj1 (calibration_load_ordered (init "Scanner") config
                  "120" "15" "40" "300" 120 15 40 300
                  eq_refl eq_refl eq_refl eq_refl
                  eq_refl eq_refl eq_refl eq_refl) eq_refl).
Defined.

End claim_calibration.

Section claim_malformed.
Import Py.

(** C4, the claim as the spec states it, fails: a window width that is
    present but not a number makes [_PaperworkSize.load] raise
    [ValueError] to its caller, and the default pair is not applied (the
    object keeps 800x600). *)
Lemma size_load_malformed_raises :
  _PaperworkSize.load main_win_size_800_600 store_bad_width
  = (main_win_size_800_600,
     Some (ValueError "invalid literal for int() with base 10")).
Proof. reflexivity. Qed.

(** C4, amended.  [load] of the Size Pair and of the Scan-Time Table
    recovers locally from an absent value only, never from a value that is
    present and is not a number.

    The Size Pair reads the width, then the height.  When the width is
    absent, or the width is an integer and the height is absent, both
    dimensions are reset to the default pair and nothing is raised.  When
    the width is present and [int] rejects it, or the width is an integer
    and the height is present and [int] rejects it, [load] raises that
    [ValueError] to its caller and leaves the pair as it was.  When both
    are integers, each is raised to its minimum and stored.  (A height
    next to an absent width is never read.)

    The Scan-Time Table visits its phases in the order of its table
    (calibration, normal, ocr): the cached value of a phase whose key is
    absent is dropped, a value [float] accepts is cached.  When no phase
    is malformed nothing is raised.  At the first phase whose value is
    present and [float] rejects, [load] raises that [ValueError] to its
    caller: the phases before it are updated, that phase and the later
    ones keep what was cached (a later phase whose key is absent is not
    dropped). *)
Theorem load_malformed_propagates :
  (∀ self config,
     let w := Store.lookup config (_PaperworkSize.section self)
                (_PaperworkSize.base_token self +:+ "_w") in
     let h := Store.lookup config (_PaperworkSize.section self)
                (_PaperworkSize.base_token self +:+ "_h") in
     let reset := (_PaperworkSize.set_value self
                     (_PaperworkSize.default_size self), None) in
     (w = None → _PaperworkSize.load self config = reset)
     ∧ (∀ sw n, w = Some sw → int sw = Ok n → h = None →
          _PaperworkSize.load self config = reset)
     ∧ (∀ sw e, w = Some sw → int sw = Raise e →
          _PaperworkSize.load self config = (self, Some e))
     ∧ (∀ sw n sh e, w = Some sw → int sw = Ok n →
          h = Some sh → int sh = Raise e →
          _PaperworkSize.load self config = (self, Some e))
     ∧ (∀ sw n sh m, w = Some sw → int sw = Ok n →
          h = Some sh → int sh = Ok m →
          _PaperworkSize.load self config
          = (_PaperworkSize.set_value self
               (Z.max n (_PaperworkSize.min_size self).1,
                Z.max m (_PaperworkSize.min_size self).2), None)))
  ∧ (∀ (float_t : Type) (float_of_str : string → option float_t)
       (self : _ScanTimes.t float_t) config,
       let self' := (_ScanTimes.load float_of_str self config).1 in
       let raised := (_ScanTimes.load float_of_str self config).2 in
       ((∀ k cfg, (k, cfg) ∈ _ScanTimes.__ITEM_2_CONFIG →
           _ScanTimes.phase_value float_of_str config cfg ≠ Some None) →
        raised = None
        ∧ ∀ k cfg, (k, cfg) ∈ _ScanTimes.__ITEM_2_CONFIG →
            _ScanTimes.values self' !! k
            = Store.lookup config cfg.1 cfg.2 ≫= float_of_str)
       ∧ ((∃ k cfg, (k, cfg) ∈ _ScanTimes.__ITEM_2_CONFIG
             ∧ _ScanTimes.phase_value float_of_str config cfg = Some None) →
          raised = Some (ValueError "could not convert string to float"))
       ∧ (∀ before k cfg after,
            _ScanTimes.__ITEM_2_CONFIG = before ++ (k, cfg) :: after →
            (∀ k' cfg', (k', cfg') ∈ before →
               _ScanTimes.phase_value float_of_str config cfg' ≠ Some None) →
            _ScanTimes.phase_value float_of_str config cfg = Some None →
            raised = Some (ValueError "could not convert string to float")
            ∧ (∀ k' cfg', (k', cfg') ∈ before →
                 _ScanTimes.values self' !! k'
                 = Store.lookup config cfg'.1 cfg'.2 ≫= float_of_str)
            ∧ (∀ k', k' ∉ before.*1 →
                 _ScanTimes.values self' !! k'
                 = _ScanTimes.values self !! k'))).
Proof.
  split.
  - intros self config w h reset. subst w h reset.
    rewrite size_load_cases. split_and!.
    + by intros ->.
    + by intros sw n -> -> ->.
    + by intros sw e -> ->.
    + by intros sw n sh e -> -> -> ->.
    + by intros sw n sh m -> -> -> ->.
  - intros float_t float_of_str self config. simpl. split_and!.
    + apply scan_load_well_formed.
    + apply scan_load_malformed.
    + apply scan_load_first_malformed.
Qed.

Lemma load_malformed_propagates_witness :
  _PaperworkSize.load main_win_size_800_600 store_bad_width
  = (main_win_size_800_600,
     Some (ValueError "invalid literal for int() with base 10"))
  ∧ _PaperworkSize.load main_win_size_800_600 ∅
    = (_PaperworkSize.set_value main_win_size_800_600 (1024, 768)%Z, None)
  ∧ _PaperworkSize.load main_win_size_800_600 store_bad_height_only
    = (_PaperworkSize.set_value main_win_size_800_600 (1024, 768)%Z, None)
  ∧ (_ScanTimes.load float_of_int_literal _ScanTimes.init
       store_bad_scan_time).2
    = Some (ValueError "could not convert string to float")
  ∧ _ScanTimes.values
      (_ScanTimes.load float_of_int_literal scan_times_cached
         store_bad_scan_time).1 !! "ocr" = Some 30%Z.
Proof.
  destruct load_malformed_propagates as [Hsize Hscan].
  destruct (Hsize main_win_size_800_600 store_bad_width) as (_ & _ & H3 & _).
  destruct (Hsize main_win_size_800_600 ∅) as (H1 & _).
  destruct (Hsize main_win_size_800_600 store_bad_height_only) as (H1' & _).
  destruct (Hscan Z float_of_int_literal _ScanTimes.init store_bad_scan_time)
    as (_ & H5 & _).
  destruct (Hscan Z float_of_int_literal scan_times_cached store_bad_scan_time)
    as (_ & _ & H6).
  split_and!.
  - exact (H3 "abc" _ eq_refl eq_refl).
  - exact (H1 eq_refl).
  - exact (H1' eq_refl).
  - apply H5. exists "normal", ("Scanner", "ScanTime").
    split; [by_compute|reflexivity].
  - destruct (H6 [("calibration", ("Scanner", "ScanTimeCalibration"))]
                "normal" ("Scanner", "ScanTime") [("ocr", ("OCR", "OCRTime"))]
                eq_refl) as (_ & _ & Hkeep).
    + by intros k' cfg' [[= -> ->]|[]%elem_of_nil]%elem_of_cons.
    + reflexivity.
    + rewrite (Hkeep "ocr"); [reflexivity|].
      by intros [[=]|[]%elem_of_nil]%elem_of_cons.
Defined.

End claim_malformed.

Section claim_date.
Import Py _PaperworkDate.

(** C5. Date Setting [load].  When the stored text is present and
    [strptime] with the format ["%Y-%m-%d"] rejects it, the [ValueError]
    is not caught: it reaches the caller and the held date is unchanged.
    When the key is absent, the default-value factory is called, its
    result is held and nothing is raised.  (A stored text [strptime]
    accepts is parsed and held.) *)
Theorem date_load_propagates self config now :
  date_setting_built self →
  let self' := (load self config now).1 in
  let raised := (load self config now).2 in
  (∀ raw e, date_stored self config = Some raw →
            datetime.strptime_Ymd raw = Raise e →
            raised = Some e ∧ value self' = value self)
  ∧ (date_stored self config = None →
     raised = None ∧ value self' = Some (default_value_func self now))
  ∧ (∀ raw dt, date_stored self config = Some raw →
               datetime.strptime_Ymd raw = Ok dt →
               raised = None ∧ value self' = Some dt).
Proof.
  intros Hb. pose proof (date_load_cases self config now Hb) as H.
  simpl in *. split_and!.
  - intros raw e Hs Hp. rewrite Hs, Hp in H. by destruct H.
  - intros Hs. rewrite Hs in H. by destruct H.
  - intros raw dt Hs Hp. rewrite Hs, Hp in H. by destruct H.
Qed.

Lemma date_load_propagates_witness :
  (load last_update_check store_bad_date epoch).2
  = Some (ValueError "time data does not match format")
  ∧ load last_update_check ∅ epoch = (last_update_check, None).
Proof.
  pose proof (date_load_propagates last_update_check store_bad_date epoch
                (conj eq_refl eq_refl)) as (H1 & _).
  pose proof (date_load_propagates last_update_check ∅ epoch
                (conj eq_refl eq_refl)) as (_ & H2 & _).
  split.
  - exact (proj1 (H1 "2014/01/05" _ eq_refl eq_refl)).
  - generalize (H2 eq_refl). reflexivity.
Defined.

End claim_date.

Section claim_size_roundtrip.
Import Py _PaperworkSize.

(** C7. Size Pair round trip.  [update] followed by [load] on the same
    store raises nothing and yields each dimension clamped from below by its
    minimum, independently of the other: a pair with both dimensions at
    least the minimum is reproduced exactly, a dimension below its minimum
    comes back as the minimum. *)
Theorem size_update_load_roundtrip self config :
  let w := (value self).1 in
  let h := (value self).2 in
  let min_w := (min_size self).1 in
  let min_h := (min_size self).2 in
  let self' := (load self (update self config)).1 in
  (load self (update self config)).2 = None
  ∧ value self' = (Z.max w min_w, Z.max h min_h)
  ∧ ((min_w ≤ w)%Z → (min_h ≤ h)%Z → self' = self)
  ∧ ((w < min_w)%Z → (value self').1 = min_w)
  ∧ ((h < min_h)%Z → (value self').2 = min_h)
  ∧ ((min_w ≤ w)%Z → (value self').1 = w)
  ∧ ((min_h ≤ h)%Z → (value self').2 = h).
Proof.
  simpl. rewrite size_update_load. simpl. split_and!; try done.
  - intros Hw Hh. destruct self as [s b [w h] d [mw mh]]. simpl in *.
    unfold set_value. simpl. by rewrite !Z.max_l by done.
  - lia.
  - lia.
  - lia.
  - lia.
Qed.

Lemma size_update_load_roundtrip_witness :
  load main_win_size_800_600 (update main_win_size_800_600 store_bad_width)
  = (main_win_size_800_600, None)
  ∧ value (load main_win_size_200_900 (update main_win_size_200_900 ∅)).1
    = (400, 900)%Z.
Proof.
  split.
  - destruct (size_update_load_roundtrip main_win_size_800_600 store_bad_width)
      as (H1 & _ & H3 & _).
    apply injective_projections; [apply H3; by_compute|exact H1].
  - exact (proj1 (proj2 (size_update_load_roundtrip main_win_size_200_900 ∅))).
Defined.

End claim_size_roundtrip.

Section claim_recent_store.
Import Py _PaperworkRecent.

Lemma push_all_fields self vs :
  section (push_all self vs) = section self
  ∧ base_token (push_all self vs) = base_token self
  ∧ max_length (push_all self vs) = max_length self.
Proof.
  revert self. induction vs as [|v vs IH]; intros self; [done|].
  simpl. destruct (IH (push self v)) as (-> & -> & ->). apply push_fields.
Qed.

Lemma load_same_fields r1 r2 config :
  section r1 = section r2 → base_token r1 = base_token r2 →
  max_length r1 = max_length r2 →
  load r1 config = load r2 config.
Proof.
  destruct r1, r2. simpl. intros -> -> ->. reflexivity.
Qed.

(** C6, the claim as the spec states it, fails: a list built by one push,
    written to a store that holds three entries of an earlier session and
    loaded back, comes back with the two stale entries behind its own. *)
Lemma recent_roundtrip_stale :
  value last_documents_x = ["x"]
  ∧ (update last_documents_x store_abc).2 = None
  ∧ value (load last_documents_x (update last_documents_x store_abc).1).1
    = ["x"; "b"; "c"].
Proof. vm_compute. done. Qed.

(** C6, amended.  For a Recent List built by pushes (at most [max_length]
    entries, trimmed, non-empty, distinct) of well-formed text, [update]
    against a store that holds no entry at the index equal to the length of
    the list, followed by [load] from that store, raises nothing and
    reproduces exactly the same ordered sequence, in the same object or in
    any object with the same section, base token and capacity. *)
Theorem recent_update_load_roundtrip self config :
  bounded_nodup self →
  Forall trimmed (value self) →
  Forall well_formed (value self) →
  Store.lookup config (section self) (key self (length (value self))) = None →
  (update self config).2 = None
  ∧ load self (update self config).1 = (self, None)
  ∧ ∀ other, section other = section self →
             base_token other = base_token self →
             max_length other = max_length self →
             load other (update self config).1 = (self, None).
Proof.
  intros [Hlen Hnd] Htrim Hwf Hend.
  destruct (update_loop_spec self 0 (value self) config) as (He & Hin & Hout).
  fold (update self config) in He, Hin, Hout.
  assert (load self (update self config).1 = (self, None)) as Hload.
  { apply (load_by_fuel (S (length (value self)))).
    rewrite (load_loop_entries (value self)).
    - f_equal. f_equal.
      destruct (push_all_fields (set_value self []) (value self))
        as (Hs & Hb & Hm).
      pose proof (push_all_distinct (set_value self []) (value self)) as Hv.
      assert (strip <$> value self = value self) as Hstrip.
      { clear -Htrim. induction Htrim as [|v vs [Hv _] _ IH]; [done|].
        by rewrite fmap_cons, Hv, IH. }
      rewrite Hstrip in Hv. simpl in Hv.
      assert (value (push_all (set_value self []) (value self)) = value self)
        as Hval.
      { rewrite Hv; [|lia|done|].
        - by replace (_ - _) with 0 by lia.
        - intros Hin'. rewrite Forall_forall in Htrim.
          by destruct (Htrim _ Hin'). }
      destruct self, (push_all _ _). simpl in *. by subst.
    - intros i v Hv. split.
      + rewrite Forall_forall in Hwf. apply Hwf.
        by eapply list_elem_of_lookup_2.
      + by apply Hin.
    - change (Store.lookup (update self config).1 (section self)
                (key self (0 + length (value self))) = None).
      rewrite Hout; [done|].
      intros _ i Hi Hk. apply key_inj in Hk. lia. }
  split_and!; [done..|].
  intros other Hs Hb Hm. by rewrite (load_same_fields other self).
Qed.

Lemma recent_update_load_roundtrip_witness :
  load (init "recent" "documents" 3) store_abc = (last_documents_abc, None).
Proof.
  refine (proj2 (proj2 (recent_update_load_roundtrip last_documents_abc ∅
                          _ _ _ _)) _ eq_refl eq_refl eq_refl).
  - split; [simpl; lia|by_compute].
  - repeat constructor; by_compute.
  - repeat constructor.
  - reflexivity.
Defined.

(** C9. Frame of the Recent List [update]: with [n] entries it raises
    nothing, stores the base64 text of the entry at position [i] under the
    key of index [i] for every [i < n], and leaves every other key of the
    store as it was; in particular the keys of index [n] and above, such
    as the entries of a longer list written earlier, are unchanged. *)
Theorem recent_update_frame self config :
  let config' := (update self config).1 in
  (update self config).2 = None
  ∧ (∀ i v, value self !! i = Some v →
       Store.lookup config' (section self) (key self i)
       = Some (stored_text v))
  ∧ (∀ s k,
       (s = section self → ∀ i, i < length (value self) → k ≠ key self i) →
       Store.lookup config' s k = Store.lookup config s k)
  ∧ (∀ i, length (value self) ≤ i →
       Store.lookup config' (section self) (key self i)
       = Store.lookup config (section self) (key self i)).
Proof.
  destruct (update_loop_spec self 0 (value self) config) as (He & Hin & Hout).
  simpl. split_and!; [done|exact Hin|exact Hout|].
  intros i Hi. apply Hout. intros _ j Hj Hk. apply key_inj in Hk.
  simpl in Hk. lia.
Qed.

(** C10. [load] of the Recent List discards what the object held: two
    objects with the same section, base token and capacity, whatever
    their lists, are left by [load] from the same store with the same
    list (and the same outcome); the list a [load] leaves is the one a
    new object would get. *)
Theorem recent_load_ignores_memory r1 r2 config :
  section r1 = section r2 →
  base_token r1 = base_token r2 →
  max_length r1 = max_length r2 →
  load r1 config = load r2 config
  ∧ value (load r1 config).1 = value (load r2 config).1
  ∧ load r1 config
    = load (init (section r1) (base_token r1) (max_length r1)) config.
Proof.
  intros Hs Hb Hm. rewrite (load_same_fields r1 r2) by done.
  split_and!; [done..|]. apply load_same_fields; simpl; congruence.
Qed.

Lemma recent_load_ignores_memory_witness :
  load last_documents_x store_abc
  = load (init "recent" "documents" 3) store_abc.
Proof.
  exact (proj1 (recent_load_ignores_memory last_documents_x
                  (init "recent" "documents" 3) store_abc
                  eq_refl eq_refl eq_refl)).
Defined.

End claim_recent_store.

Section claim_scanner.
Import Py pyinsane2.

(** C8. Resolution fallback of [_get_scanner].  When the device has a
    resolution option but rejects the configured resolution with a
    [PyinsaneException], and the other paragraphs of the configuration
    complete, [_get_scanner] returns the device together with the
    resolution the device reports, not the configured one; [get_scanner]
    returns the same pair when this happens for the configured device. *)
Theorem applied_resolution_is_reported {world dev : Type}
    (drv : driver world dev) config devid preferred_sources
    w dev_ w1 w2 opts w3 msg w4 v w5 r w6 w7 :
  drv.(Scanner) devid w = (Ok dev_, w1) →
  set_source drv config dev_ preferred_sources w1 = (Ok tt, w2) →
  drv.(options) dev_ w2 = (Ok opts, w3) →
  "resolution" ∈ opts →
  drv.(set_scanner_opt) dev_ "resolution" [Int config.(scanner_resolution)] w3
    = (Raise (PyinsaneException msg), w4) →
  drv.(option_value) dev_ "resolution" w4 = (Ok v, w5) →
  int_optval v = Ok r →
  set_mode drv dev_ w5 = (Ok tt, w6) →
  maximize drv dev_ w6 = (Ok tt, w7) →
  _get_scanner drv config devid preferred_sources w = (Ok (dev_, r), w7)
  ∧ (devid = config.(scanner_devid) →
     get_scanner drv config preferred_sources w = (Ok (dev_, r), w7)).
Proof.
  intros H1 H2 H3 Hin H4 H5 Hr H6 H7.
  assert (_get_scanner drv config devid preferred_sources w
          = (Ok (dev_, r), w7)) as H.
  { eapply _get_scanner_steps; [done..| |done|done].
    by eapply set_resolution_rejected. }
  split; [done|]. intros ->. by apply get_scanner_first_ok.
Qed.

Lemma applied_resolution_is_reported_witness :
  scanner_resolution registry_X = 300%Z
  ∧ get_scanner driver_rejects_resolution registry_X None tt
    = (Ok ("X", 150%Z), tt).
Proof.
  split; [reflexivity|].
  refine (proj2 (applied_resolution_is_reported driver_rejects_resolution
                   registry_X (Some "X") None tt "X" tt tt
                   ["source"; "resolution"; "mode"] tt "invalid value" tt
                   (Int 150) tt 150 tt tt
                   eq_refl eq_refl eq_refl _ eq_refl eq_refl eq_refl
                   eq_refl eq_refl) eq_refl).
  by_compute.
Defined.

(** C3, the code at the failing input.  The configured device ["X"] is
    unknown to the driver ([PyinsaneException]); one device, ["Y"],
    remains, and configuring its source raises [KeyError].  The caller of
    [get_scanner] sees the [KeyError] of the fallback, not the original
    failure. *)
Lemma get_scanner_fallback_error_escapes :
  _get_scanner (driver_without_X ["Y"] (KeyError "source")) registry_X
    (Some "X") None tt
  = (Raise (PyinsaneException "X: no such device"), tt)
  ∧ get_scanner (driver_without_X ["Y"] (KeyError "source")) registry_X
      None tt
    = (Raise (KeyError "source"), tt).
Proof. split; reflexivity. Qed.

(** X1. What [get_scanner] does after a first attempt that raised
    [KeyError] or [PyinsaneException]: the devices are enumerated and
    those whose name starts with ["v4l:"] are left out; with none or
    several candidates, or when the enumeration raises
    [PyinsaneException], the original exception is raised; with one
    candidate the configuration is tried on it, its result is returned on
    success, a [PyinsaneException] of the retry is replaced by the original
    exception, and any other exception of the retry reaches the caller. *)
Theorem get_scanner_fallback_spec {world dev : Type}
    (drv : driver world dev) config preferred_sources w exc w1 :
  _get_scanner drv config config.(scanner_devid) preferred_sources w
    = (Raise exc, w1) →
  is_KeyError_or_PyinsaneException exc = true →
  (∀ devices w2,
     drv.(get_devices) w1 = (Ok devices, w2) →
     length (List.filter (not_v4l drv) devices) ≠ 1 →
     get_scanner drv config preferred_sources w = (Raise exc, w2))
  ∧ (∀ msg w2,
       drv.(get_devices) w1 = (Raise (PyinsaneException msg), w2) →
       get_scanner drv config preferred_sources w = (Raise exc, w2))
  ∧ (∀ devices w2 x,
       drv.(get_devices) w1 = (Ok devices, w2) →
       List.filter (not_v4l drv) devices = [x] →
       get_scanner drv config preferred_sources w =
       match _get_scanner drv config (Some (drv.(name) x))
               preferred_sources w2 with
       | (Raise (PyinsaneException _), w3) => (Raise exc, w3)
       | r => r
       end).
Proof.
  intros H Hexc. rewrite (get_scanner_fallback drv _ _ _ _ _ H Hexc).
  split_and!.
  - intros devices w2. apply fallback_not_single.
  - intros msg w2. apply fallback_enumeration_fails.
  - intros devices w2 x. apply fallback_single.
Qed.

Lemma get_scanner_fallback_spec_witness :
  get_scanner (driver_without_X_ok ["v4l:/dev/video0"; "Y"]) registry_X
    None tt
  = (Ok ("Y", 300%Z), tt)
  ∧ get_scanner (driver_without_X_ok ["Y"; "Z"]) registry_X None tt
    = (Raise (PyinsaneException "X: no such device"), tt).
Proof.
  split.
  - exact (proj2 (proj2 (get_scanner_fallback_spec
             (driver_without_X_ok ["v4l:/dev/video0"; "Y"]) registry_X None
             tt _ tt eq_refl eq_refl)) _ tt "Y" eq_refl eq_refl).
  - refine (proj1 (get_scanner_fallback_spec
             (driver_without_X_ok ["Y"; "Z"]) registry_X None
             tt _ tt eq_refl eq_refl) _ tt eq_refl _).
    simpl. lia.
Defined.

End claim_scanner.

Section further_properties.
Import Py.

(** X2. Calibration Record without calibration.  When the first
    coordinate key is absent (so in particular when the four coordinate
    keys are absent), [load] raises nothing and sets the record to [None];
    [update] of a [None] record leaves the store as it is. *)
Theorem calibration_absent_none self config :
  (Store.lookup config "Scanner" "Calibration_Pt_A_X" = None →
   _PaperworkScannerCalibration.load self config
   = (_PaperworkScannerCalibration.mk
        (_PaperworkScannerCalibration.section self) None, None))
  ∧ (_PaperworkScannerCalibration.value self = None →
     _PaperworkScannerCalibration.update self config = config).
Proof.
  split.
  - intros H. unfold _PaperworkScannerCalibration.load,
      _PaperworkScannerCalibration.load_try.
    destruct (get_absent _ _ _ H) as (e & -> & He). simpl. by rewrite He.
  - intros H. unfold _PaperworkScannerCalibration.update. by rewrite H.
Qed.

Lemma calibration_absent_none_witness :
  _PaperworkScannerCalibration.load
    (_PaperworkScannerCalibration.init "Scanner") store_bad_width
  = (_PaperworkScannerCalibration.init "Scanner", None).
Proof.
  exact (proj1 (calibration_absent_none
                  (_PaperworkScannerCalibration.init "Scanner")
                  store_bad_width) eq_refl).
Defined.

(** X3. Termination of the Recent List [load].  On every store the
    [while True] loop of [load] is left after at most one turn more than
    the section has options, and any number of turns that reaches the end
    of the loop gives the result of [load]. *)
Theorem recent_load_terminates self config :
  (∃ r, _PaperworkRecent.load_loop
          (S (size (default ∅ (config !! _PaperworkRecent.section self))))
          (_PaperworkRecent.set_value self []) config 0 = Some r
        ∧ _PaperworkRecent.load self config = r)
  ∧ (∀ fuel r, _PaperworkRecent.load_loop fuel
                 (_PaperworkRecent.set_value self []) config 0 = Some r →
               _PaperworkRecent.load self config = r).
Proof.
  split; [apply load_total|]. intros fuel r. apply load_by_fuel.
Qed.

End further_properties.

Section calibration_update_facts.
Import Py _PaperworkScannerCalibration.

(** The five keys [update] writes. *)
Lemma calibration_update_lookup self config resolution a_x a_y b_x b_y :
  value self = Some (resolution, ((a_x, a_y), (b_x, b_y))) →
  let config' := update self config in
  Store.lookup config' "Scanner" "Calibration_Resolution"
    = Some (str_int resolution)
  ∧ Store.lookup config' "Scanner" "Calibration_Pt_A_X" = Some (str_int a_x)
  ∧ Store.lookup config' "Scanner" "Calibration_Pt_A_Y" = Some (str_int a_y)
  ∧ Store.lookup config' "Scanner" "Calibration_Pt_B_X" = Some (str_int b_x)
  ∧ Store.lookup config' "Scanner" "Calibration_Pt_B_Y" = Some (str_int b_y)
  ∧ ∀ s k,
      (s, k) ∉ [ ("Scanner", "Calibration_Resolution");
                 ("Scanner", "Calibration_Pt_A_X");
                 ("Scanner", "Calibration_Pt_A_Y");
                 ("Scanner", "Calibration_Pt_B_X");
                 ("Scanner", "Calibration_Pt_B_Y") ] →
      Store.lookup config' s k = Store.lookup config s k.
Proof.
  intros Hv. unfold update. rewrite Hv. simpl.
  split_and!;
    repeat first [ apply lookup_set_eq
                 | rewrite lookup_set_ne by (by intros [=]) ]; try done.
  intros s k Hk.
  repeat (apply not_elem_of_cons in Hk as [? Hk]).
  by rewrite !lookup_set_ne by congruence.
Qed.

(** X4. Calibration Record round trip.  [update] of a record followed by
    [load] from the same store raises nothing and gives the record with
    the same resolution and each axis ordered (A takes the smaller
    coordinate, B the larger); a record whose point A is already the
    top-left one comes back unchanged. *)
Theorem calibration_update_load self config resolution a_x a_y b_x b_y :
  value self = Some (resolution, ((a_x, a_y), (b_x, b_y))) →
  load self (update self config)
  = (mk (section self)
        (Some (resolution, ((Z.min a_x b_x, Z.min a_y b_y),
                            (Z.max a_x b_x, Z.max a_y b_y)))), None)
  ∧ ((a_x ≤ b_x)%Z → (a_y ≤ b_y)%Z →
     load self (update self config) = (self, None)).
Proof.
  intros Hv.
  destruct (calibration_update_lookup self config _ _ _ _ _ Hv)
    as (Hr & Hax & Hay & Hbx & Hby & _).
  assert (load self (update self config)
          = (mk (section self)
               (Some (resolution, ((Z.min a_x b_x, Z.min a_y b_y),
                                   (Z.max a_x b_x, Z.max a_y b_y)))), None))
    as Hload.
  { rewrite (calibration_load_coords self _ _ _ _ _ a_x a_y b_x b_y
               Hax Hay Hbx Hby) by apply int_str_int.
    by rewrite Hr, int_str_int. }
  split; [done|]. intros Hx Hy. rewrite Hload.
  rewrite !Z.min_l, !Z.max_r by done.
  destruct self as [s v]. simpl in *. by subst.
Qed.

Lemma calibration_update_load_witness :
  load calibration_unordered (update calibration_unordered ∅)
  = (mk "Scanner" (Some (300, ((40, 15), (120, 300))))%Z, None).
Proof.
  exact (proj1 (calibration_update_load calibration_unordered ∅
                  300 120 300 40 15 eq_refl)).
Defined.

(** X5. Frame of the Calibration Record [update]: it changes no key of the
    store other than the resolution and the four coordinates of the
    section ["Scanner"], where it stores the decimal text of the record's
    five numbers. *)
Theorem calibration_update_frame self config resolution a_x a_y b_x b_y :
  value self = Some (resolution, ((a_x, a_y), (b_x, b_y))) →
  let config' := update self config in
  Store.lookup config' "Scanner" "Calibration_Resolution"
    = Some (str_int resolution)
  ∧ Store.lookup config' "Scanner" "Calibration_Pt_A_X" = Some (str_int a_x)
  ∧ Store.lookup config' "Scanner" "Calibration_Pt_A_Y" = Some (str_int a_y)
  ∧ Store.lookup config' "Scanner" "Calibration_Pt_B_X" = Some (str_int b_x)
  ∧ Store.lookup config' "Scanner" "Calibration_Pt_B_Y" = Some (str_int b_y)
  ∧ ∀ s k,
      (s, k) ∉ [ ("Scanner", "Calibration_Resolution");
                 ("Scanner", "Calibration_Pt_A_X");
                 ("Scanner", "Calibration_Pt_A_Y");
                 ("Scanner", "Calibration_Pt_B_X");
                 ("Scanner", "Calibration_Pt_B_Y") ] →
      Store.lookup config' s k = Store.lookup config s k.
Proof. apply calibration_update_lookup. Qed.

Lemma calibration_update_frame_witness :
  Store.lookup (update calibration_unordered store_bad_width)
    "GUI" "main_win_size_w" = Some "abc"
  ∧ Store.lookup (update calibration_unordered store_bad_width)
      "Scanner" "Calibration_Pt_A_X" = Some "120".
Proof.
  destruct (calibration_update_frame calibration_unordered store_bad_width
              300 120 300 40 15 eq_refl) as (_ & Hax & _ & _ & _ & Hf).
  split; [|exact Hax].
  rewrite Hf; [reflexivity|by_compute].
Defined.

End calibration_update_facts.

Section size_more_facts.
Import Py _PaperworkSize.

(** X6. Bounds of the Size Pair [load].  A [load] that raises nothing
    leaves either the default pair or a pair whose dimensions are both at
    least their minimum, and the pair it leaves does not depend on the pair
    held before; a [load] that raises leaves the object as it was. *)
Theorem size_load_bounds self config :
  let self' := (load self config).1 in
  let raised := (load self config).2 in
  (raised = None →
     (value self' = default_size self
      ∨ ((min_size self).1 ≤ (value self').1
         ∧ (min_size self).2 ≤ (value self').2)%Z)
     ∧ ∀ v, value (load (set_value self v) config).1 = value self')
  ∧ (raised ≠ None → self' = self).
Proof.
  simpl. rewrite size_load_cases.
  split.
  - intros Hr. split.
    + destruct (Store.lookup _ _ (_ +:+ "_w")) as [sw|]; [|by left].
      destruct (int sw) as [w|e]; [|done].
      destruct (Store.lookup _ _ (_ +:+ "_h")) as [sh|]; [|by left].
      destruct (int sh) as [h|e]; [|done].
      right. simpl. lia.
    + intros v. rewrite size_load_cases. simpl.
      destruct (Store.lookup _ _ (_ +:+ "_w")) as [sw|]; [|done].
      destruct (int sw) as [w|e]; [|done].
      destruct (Store.lookup _ _ (_ +:+ "_h")) as [sh|]; [|done].
      by destruct (int sh) as [h|e].
  - intros Hr.
    destruct (Store.lookup _ _ (_ +:+ "_w")) as [sw|]; [|done].
    destruct (int sw) as [w|e]; [|done].
    destruct (Store.lookup _ _ (_ +:+ "_h")) as [sh|]; [|done].
    by destruct (int sh) as [h|e].
Qed.

(** X7. Frame of the Size Pair [update]: it stores the decimal text of the
    width and of the height under the two keys of the setting and changes
    no other key of the store. *)
Theorem size_update_frame self config :
  let config' := update self config in
  Store.lookup config' (section self) (base_token self +:+ "_w")
    = Some (str_int (value self).1)
  ∧ Store.lookup config' (section self) (base_token self +:+ "_h")
    = Some (str_int (value self).2)
  ∧ ∀ s k,
      (s, k) ≠ (section self, base_token self +:+ "_w") →
      (s, k) ≠ (section self, base_token self +:+ "_h") →
      Store.lookup config' s k = Store.lookup config s k.
Proof.
  destruct (size_update_lookup self config) as [Hw Hh].
  split_and!; [done..|].
  intros s k H1 H2. unfold update. by rewrite !lookup_set_ne.
Qed.

End size_more_facts.

Section recent_more_facts.
Import Py _PaperworkRecent.

(** *** [push] once more *)

(** X8. [push] applied twice.  Pushing a value that was just pushed
    changes nothing; a pushed value that is not blank is in the list
    afterwards when the capacity is at least one and was respected, and a
    list of capacity zero stays empty; the entries that remain keep their
    order. *)
Theorem push_again r v :
  push (push r v) v = push r v
  ∧ (0 < max_length r → length (value r) ≤ max_length r →
     strip v ≠ "" → strip v ∈ value (push r v))
  ∧ (max_length r = 0 → value r = [] → value (push r v) = [])
  ∧ value (push r v) `sublist_of` value r ++ [strip v].
Proof.
  destruct (decide (strip v = "")) as [He|He].
  { rewrite !(push_blank r v) by done. split_and!; [done..| |].
    - by intros _ ->.
    - by apply sublist_inserts_r. }
  destruct (decide (strip v ∈ value r)) as [Hin|Hin].
  { rewrite !(push_present r v) by done. split_and!; [done..| |].
    - by intros _ ->.
    - by apply sublist_inserts_r. }
  rewrite (push_fresh r v) by done. split_and!.
  - destruct (decide _) as [Hgt|Hle].
    + destruct (value r) as [|x l] eqn:Hl; simpl in *.
      * rewrite push_fresh by (simpl; done || set_solver). simpl.
        rewrite decide_True by (simpl; lia). done.
      * apply push_present. simpl. set_solver.
    + apply push_present. simpl. set_solver.
  - intros Hpos Hlen _. simpl. destruct (decide _) as [Hgt|Hle].
    + rewrite length_app in Hgt. simpl in Hgt.
      destruct (value r) as [|x l]; simpl in *; [lia|]. set_solver.
    + set_solver.
  - intros Hm Hv. simpl. rewrite Hv, Hm. simpl. done.
  - simpl. destruct (decide _); [apply sublist_drop|done].
Qed.

Lemma push_again_witness :
  value (push (init "recent" "search" 10) " invoice ") = ["invoice"]
  ∧ value (push (init "recent" "search" 0) "invoice") = [].
Proof.
  destruct (push_again (init "recent" "search" 0) "invoice")
    as (_ & _ & H0 & _).
  split; [reflexivity|exact (H0 eq_refl eq_refl)].
Defined.

(** *** [load] and the invariant *)

Lemma load_loop_invariant fuel self config idx r e :
  load_loop fuel self config idx = Some (r, e) →
  bounded_nodup self → Forall trimmed (value self) →
  bounded_nodup r ∧ Forall trimmed (value r)
  ∧ section r = section self ∧ base_token r = base_token self
  ∧ max_length r = max_length self.
Proof.
  revert self idx. induction fuel as [|fuel IH]; intros self idx; [done|].
  rewrite load_loop_step.
  destruct (Store.lookup _ _ _) as [raw|]; [|by intros [= <- <-]].
  destruct (decode_entry raw) as [v|e']; [|by intros [= <- <-]].
  intros Hl Hb Ht.
  destruct (IH _ _ Hl) as (? & ? & -> & -> & ->);
    [by apply push_bounded_nodup|by apply push_trimmed|].
  split_and!; [done..| | |]; apply push_fields.
Qed.

(** X9. Invariant of the Recent List [load].  Whatever the store holds
    and whether or not [load] raises, the list it leaves has at most
    [max_length] entries, no duplicates and only trimmed, non-empty
    entries; section, base token and capacity are unchanged. *)
Theorem recent_load_invariant self config :
  let self' := (load self config).1 in
  bounded_nodup self' ∧ Forall trimmed (value self')
  ∧ section self' = section self ∧ base_token self' = base_token self
  ∧ max_length self' = max_length self.
Proof.
  destruct (load_total self config) as ([r e] & Hr & ->). simpl.
  apply load_loop_invariant in Hr; [done| |constructor].
  split; [simpl; lia|constructor].
Qed.

(** X10. The capacity applies at [load].  When a list of distinct,
    trimmed, well-formed entries was written by [update] (by an object of
    any capacity) to a store with no entry at the index after the last one
    written, [load] by an object with the same section and base token
    raises nothing and keeps the last [max_length] entries, in order: the
    earliest surplus entries of a persisted list longer than the capacity
    are lost. *)
Theorem recent_load_caps writer self config :
  section writer = section self →
  base_token writer = base_token self →
  NoDup (value writer) →
  Forall trimmed (value writer) →
  Forall well_formed (value writer) →
  Store.lookup config (section writer)
    (key writer (length (value writer))) = None →
  load self (update writer config).1
  = (set_value self
       (drop (length (value writer) - max_length self) (value writer)),
     None).
Proof.
  intros Hs Hb Hnd Htrim Hwf Hend.
  destruct (update_loop_spec writer 0 (value writer) config)
    as (_ & Hin & Hout).
  fold (update writer config) in Hin, Hout.
  assert (∀ i, key (set_value self []) i = key writer i) as Hkey
    by (intros i; unfold key; simpl; by rewrite Hb).
  apply (load_by_fuel (S (length (value writer)))).
  rewrite (load_loop_entries (value writer)).
  - f_equal. f_equal.
    destruct (push_all_fields (set_value self []) (value writer))
      as (Hs' & Hb' & Hm').
    pose proof (push_all_distinct (set_value self []) (value writer)) as Hv.
    assert (strip <$> value writer = value writer) as Hstrip.
    { clear -Htrim. induction Htrim as [|v vs [Hv _] _ IH]; [done|].
      by rewrite fmap_cons, Hv, IH. }
    rewrite Hstrip in Hv. simpl in Hv.
    assert (value (push_all (set_value self []) (value writer))
            = drop (length (value writer) - max_length self) (value writer))
      as Hval.
    { apply Hv; [lia|done|]. intros Hin'. rewrite Forall_forall in Htrim.
      by destruct (Htrim _ Hin'). }
    destruct self, (push_all _ _). simpl in *. by subst.
  - intros i v Hv. split.
    + rewrite Forall_forall in Hwf. apply Hwf.
      by eapply list_elem_of_lookup_2.
    + rewrite Hkey. simpl. rewrite <-Hs. by apply Hin.
  - rewrite Hkey. simpl. rewrite <-Hs.
    rewrite Hout; [done|].
    intros _ i Hi Hk. apply key_inj in Hk. lia.
Qed.

Lemma recent_load_caps_witness :
  load (init "recent" "documents" 3) (update documents_five ∅).1
  = (mk "recent" "documents" 3 ["c"; "d"; "e"], None).
Proof.
  refine (recent_load_caps documents_five (init "recent" "documents" 3) ∅
            eq_refl eq_refl _ _ _ eq_refl).
  - by_compute.
  - repeat constructor; by_compute.
  - repeat constructor.
Defined.

(** *** Two lists in one store *)

Lemma list_ascii_of_string_app s1 s2 :
  list_ascii_of_string (s1 +:+ s2)
  = list_ascii_of_string s1 ++ list_ascii_of_string s2.
Proof. induction s1 as [|c s1 IH]; [done|]. simpl. by rewrite <-IH. Qed.

(** A separator that occurs in neither tail splits a text in one way. *)
Lemma app_sep_inj {A} (x : A) l1 l2 d1 d2 :
  x ∉ d1 → x ∉ d2 → l1 ++ x :: d1 = l2 ++ x :: d2 → l1 = l2.
Proof.
  intros H1 H2. revert l2. induction l1 as [|a l1 IH]; intros [|b l2] Heq;
    simplify_eq/=; try done.
  - exfalso. apply H1. set_solver.
  - exfalso. apply H2. set_solver.
  - f_equal. by apply IH.
Qed.

Lemma str_int_nat_digits (i : nat) :
  Forall digit_char (list_ascii_of_string (str_int (Z.of_nat i))).
Proof.
  unfold str_int, pretty, pretty_Z.
  destruct (Z.of_nat i) as [|p|p] eqn:Hi; [|..|lia].
  - repeat constructor. by exists 0%N.
  - unfold pretty, pretty_positive. rewrite pretty_N_pos.
    by destruct (int_pretty_N (N.pos p)) as (ds & -> & Hds & _); [lia|].
Qed.

(** The keys of two lists meet only when the base tokens are equal. *)
Lemma key_base_token r1 r2 i j :
  key r1 i = key r2 j → base_token r1 = base_token r2.
Proof.
  unfold key. intros H.
  apply (f_equal list_ascii_of_string) in H.
  rewrite !list_ascii_of_string_app in H. simpl in H.
  assert (∀ n : nat, "_"%char ∉ list_ascii_of_string (str_int (Z.of_nat n)))
    as Hno.
  { intros n Hin. pose proof (str_int_nat_digits n) as Hd.
    rewrite Forall_forall in Hd. by destruct (Hd _ Hin). }
  apply app_sep_inj in H; [|apply Hno..].
  rewrite <-(string_of_list_ascii_of_string (base_token r1)),
    <-(string_of_list_ascii_of_string (base_token r2)). by rewrite H.
Qed.

Lemma load_loop_ext fuel self config config' idx :
  (∀ i, Store.lookup config (section self) (key self i)
        = Store.lookup config' (section self) (key self i)) →
  load_loop fuel self config idx = load_loop fuel self config' idx.
Proof.
  intros H. revert self idx H. induction fuel as [|fuel IH];
    intros self idx H; [done|].
  rewrite !load_loop_step, H.
  destruct (Store.lookup _ _ _) as [raw|]; [|done].
  destruct (decode_entry raw) as [v|e]; [|done].
  apply IH. intros i. rewrite section_push, key_push. apply H.
Qed.

(** [load] reads the indexed keys of its own list only. *)
Lemma load_ext self config config' :
  (∀ i, Store.lookup config (section self) (key self i)
        = Store.lookup config' (section self) (key self i)) →
  load self config = load self config'.
Proof.
  intros H. destruct (load_total self config) as (r & Hr & ->).
  symmetry. apply (load_by_fuel (load_fuel (set_value self []) config)).
  by rewrite <-(load_loop_ext _ (set_value self []) config config' 0).
Qed.

(** X11. Two Recent Lists in one store do not interfere.  When two lists
    differ in their section or in their base token, no indexed key of one
    is an indexed key of the other: [update] of the first leaves every
    entry of the second as it was, so [load] of the second gives the same
    result before and after. *)
Theorem recent_lists_independent r1 r2 config :
  (section r1, base_token r1) ≠ (section r2, base_token r2) →
  (∀ i j, (section r1, key r1 i) ≠ (section r2, key r2 j))
  ∧ (∀ j, Store.lookup (update r1 config).1 (section r2) (key r2 j)
          = Store.lookup config (section r2) (key r2 j))
  ∧ load r2 (update r1 config).1 = load r2 config.
Proof.
  intros Hne.
  assert (∀ i j, (section r1, key r1 i) ≠ (section r2, key r2 j)) as Hkeys.
  { intros i j [= Hs Hk]. apply Hne. f_equal; [done|].
    by apply key_base_token in Hk. }
  destruct (update_loop_spec r1 0 (value r1) config) as (_ & _ & Hout).
  fold (update r1 config) in Hout.
  assert (∀ j, Store.lookup (update r1 config).1 (section r2) (key r2 j)
               = Store.lookup config (section r2) (key r2 j)) as Hsame.
  { intros j. apply Hout. intros Hs i _ Hk.
    apply (Hkeys i j). by rewrite Hs, Hk. }
  split_and!; [done..|].
  apply load_ext. intros i. simpl. apply Hsame.
Qed.

Lemma recent_lists_independent_witness :
  load (init "recent" "search" 10)
    (update last_documents_abc (update last_searches_two ∅).1).1
  = (last_searches_two, None).
Proof.
  rewrite (proj2 (proj2 (recent_lists_independent last_documents_abc
             (init "recent" "search" 10) (update last_searches_two ∅).1
             ltac:(by_compute)))).
  reflexivity.
Defined.

End recent_more_facts.

Section scantimes_more_facts.
Import Py _ScanTimes.
Context {float_t : Type}.
Context (float_of_str : string → option float_t).
Context (str_float : float_t → string).

Lemma item_config_elem k cfg :
  item_config k = Some cfg ↔ (k, cfg) ∈ __ITEM_2_CONFIG.
Proof.
  unfold item_config. rewrite <-elem_of_list_to_map; [done|by_compute].
Qed.

(** Two phases are never stored under the same key. *)
Lemma item_config_inj k1 k2 cfg :
  item_config k1 = Some cfg → item_config k2 = Some cfg → k1 = k2.
Proof.
  rewrite !item_config_elem. unfold __ITEM_2_CONFIG.
  intros H1 H2.
  repeat (apply elem_of_cons in H1 as [H1|H1]; [|]);
    try (by apply elem_of_nil in H1);
    repeat (apply elem_of_cons in H2 as [H2|H2]; [|]);
    try (by apply elem_of_nil in H2); congruence.
Qed.

Lemma update_items_spec (items : list (string * float_t)) config :
  NoDup items.*1 →
  (∀ k v cfg, (k, v) ∈ items → item_config k = Some cfg →
     Store.lookup (update_items str_float items config) cfg.1 cfg.2
     = Some (str_float v))
  ∧ (∀ s o,
       (∀ k v, (k, v) ∈ items → item_config k ≠ Some (s, o)) →
       Store.lookup (update_items str_float items config) s o
       = Store.lookup config s o).
Proof.
  revert config. induction items as [|[k0 v0] items IH]; intros config Hnd.
  { split; [by intros k v cfg ?%elem_of_nil|done]. }
  rewrite fmap_cons in Hnd. apply NoDup_cons in Hnd as [Hk0 Hnd].
  cbn [update_items foldl]. fold (update_items str_float items).
  destruct (IH (update_item str_float config (k0, v0)) Hnd) as [Hin Hout].
  split.
  - intros k v [s o] [[= -> ->]|Hkv]%elem_of_cons Hcfg.
    + rewrite Hout.
      * unfold update_item. simpl. rewrite Hcfg. apply lookup_set_eq.
      * intros k' v' Hk' Hcfg'. apply Hk0.
        rewrite (item_config_inj _ _ _ Hcfg Hcfg').
        apply list_elem_of_fmap. by exists (k', v').
    + exact (Hin k v (s, o) Hkv Hcfg).
  - intros s o Hno. rewrite Hout.
    + unfold update_item. simpl.
      destruct (item_config k0) as [[s0 o0]|] eqn:Hcfg; [|done].
      apply lookup_set_ne. simpl. intros [= -> ->].
      by apply (Hno k0 v0); [left|].
    + intros k v Hkv. apply (Hno k v). by right.
Qed.

(** X12. Frame of the Scan-Time Table [update].  Whatever the order in
    which the dictionary yields its items, [update] stores the text of the
    cached value of each recognised phase under the key of that phase and
    changes no other key of the store: a phase that is not cached is not
    written, and a cached phase the table does not recognise is never
    persisted. *)
Theorem scan_times_update_frame (self : t float_t) items config :
  items ≡ₚ map_to_list (values self) →
  let config' := update_items str_float items config in
  (∀ k v cfg, values self !! k = Some v → item_config k = Some cfg →
     Store.lookup config' cfg.1 cfg.2 = Some (str_float v))
  ∧ (∀ s o,
       (∀ k, is_Some (values self !! k) → item_config k ≠ Some (s, o)) →
       Store.lookup config' s o = Store.lookup config s o)
  ∧ (items = map_to_list (values self) → config' = update str_float self config).
Proof.
  intros Hperm. simpl.
  assert (NoDup items.*1) as Hnd.
  { rewrite Hperm. apply NoDup_fst_map_to_list. }
  assert (∀ k v, (k, v) ∈ items ↔ values self !! k = Some v) as Hmem.
  { intros k v. rewrite Hperm. apply elem_of_map_to_list. }
  destruct (update_items_spec items config Hnd) as [Hin Hout].
  split_and!.
  - intros k v cfg Hv Hcfg. apply (Hin k v cfg); [by apply Hmem|done].
  - intros s o Hno. apply Hout. intros k v Hkv%Hmem. apply Hno. by exists v.
  - by intros ->.
Qed.

Lemma scan_load_raised_iff (self : t float_t) config :
  (load float_of_str self config).2 = None ↔
  ∀ k cfg, (k, cfg) ∈ __ITEM_2_CONFIG →
           phase_value float_of_str config cfg ≠ Some None.
Proof.
  split.
  - intros Hr k cfg Hin Hbad.
    rewrite (scan_load_malformed float_of_str self config) in Hr; [done|].
    by exists k, cfg.
  - intros H. by apply scan_load_well_formed.
Qed.

(** X14. Scan-Time Table round trip.  When [float] reads back the text of
    each cached value, and the store holds no malformed value for the
    phases that are not cached, [update] followed by [load] raises nothing;
    every recognised phase that was cached keeps its value, and a
    recognised phase that was not cached gets the value of the store. *)
Theorem scan_times_update_load (self : t float_t) config :
  (∀ k v, values self !! k = Some v → float_of_str (str_float v) = Some v) →
  (∀ k cfg, (k, cfg) ∈ __ITEM_2_CONFIG → values self !! k = None →
            phase_value float_of_str config cfg ≠ Some None) →
  let r := load float_of_str self (update str_float self config) in
  r.2 = None
  ∧ ∀ k cfg, (k, cfg) ∈ __ITEM_2_CONFIG →
      values r.1 !! k =
      match values self !! k with
      | Some v => Some v
      | None => Store.lookup config cfg.1 cfg.2 ≫= float_of_str
      end.
Proof.
  intros Hfloat Hstore. simpl.
  destruct (scan_times_update_frame self (map_to_list (values self)) config)
    as (Hin & Hout & Heq); [done|].
  rewrite Heq in Hin, Hout by done.
  assert (∀ k cfg, (k, cfg) ∈ __ITEM_2_CONFIG →
            Store.lookup (update str_float self config) cfg.1 cfg.2 =
            match values self !! k with
            | Some v => Some (str_float v)
            | None => Store.lookup config cfg.1 cfg.2
            end) as Hlook.
  { intros k [s o] Hk. destruct (values self !! k) as [v|] eqn:Hv.
    - apply (Hin k v (s, o) Hv). by apply item_config_elem.
    - apply Hout. intros k' [v' Hv'] Hcfg.
      apply item_config_elem in Hk.
      rewrite (item_config_inj _ _ _ Hcfg Hk) in Hv'. congruence. }
  destruct (scan_load_well_formed float_of_str self
              (update str_float self config)) as [Hr Hv].
  { intros k cfg Hk. unfold phase_value. rewrite (Hlook k cfg Hk).
    destruct (values self !! k) as [v|] eqn:Hvk.
    - simpl. by rewrite (Hfloat k v Hvk).
    - by apply (Hstore k). }
  split; [done|]. intros k cfg Hk. rewrite (Hv k cfg Hk), (Hlook k cfg Hk).
  destruct (values self !! k) as [v|] eqn:Hvk; [|done].
  simpl. by apply Hfloat in Hvk.
Qed.

End scantimes_more_facts.

Lemma scan_times_update_frame_witness :
  let items := reverse (map_to_list (_ScanTimes.values scan_times_cached)) in
  let config' := _ScanTimes.update_items str_of_int_float items store_bad_width in
  Store.lookup config' "OCR" "OCRTime" = Some "30"
  ∧ Store.lookup config' "Scanner" "ScanTime" = Some "12"
  ∧ Store.lookup config' "Scanner" "ScanTimeCalibration"
    = Store.lookup store_bad_width "Scanner" "ScanTimeCalibration".
Proof.
  destruct (scan_times_update_frame str_of_int_float scan_times_cached
              (reverse (map_to_list (_ScanTimes.values scan_times_cached)))
              store_bad_width (reverse_Permutation _))
    as (Hin & Hout & _).
  split_and!.
  - apply (Hin "ocr" 30%Z ("OCR", "OCRTime")); reflexivity.
  - apply (Hin "normal" 12%Z ("Scanner", "ScanTime")); reflexivity.
  - apply Hout. intros k [v Hv] Hcfg.
    assert (k = "calibration") as ->
      by (by apply (item_config_inj _ _ _ Hcfg)).
    by vm_compute in Hv.
Defined.

Lemma scan_times_update_load_witness :
  let r := _ScanTimes.load float_of_int_literal scan_times_cached
             (_ScanTimes.update str_of_int_float scan_times_cached ∅) in
  r.2 = None
  ∧ _ScanTimes.values r.1 !! "ocr" = Some 30%Z.
Proof.
  destruct (scan_times_update_load float_of_int_literal str_of_int_float
              scan_times_cached ∅) as [Hr Hv].
  - intros k v _. unfold float_of_int_literal, str_of_int_float.
    by rewrite int_str_int.
  - intros k cfg _ _. unfold _ScanTimes.phase_value.
    unfold Store.lookup. by rewrite lookup_empty.
  - split; [done|]. apply (Hv "ocr" ("OCR", "OCRTime")). by_compute.
Defined.

Section scantimes_reading.
Import Py _ScanTimes PrimFloat.
Context (float_of_str : string → option PrimFloat.float).

(** X13. Reading the Scan-Time Table.  A table that was just built reads
    as 60.0 at every item.  An item that was set reads back as the value
    set, and the other items read as before.  After a [load] that raises
    nothing, a recognised phase reads as the number stored for it, and as
    60.0 when the store has no value for it, whatever was cached before. *)
Theorem scan_times_getitem (self : t PrimFloat.float) config :
  let loaded := load float_of_str self config in
  (∀ item, __getitem__ init item = 60.0%float)
  ∧ (∀ item value,
       __getitem__ (__setitem__ self item value) item = value
       ∧ ∀ other, other ≠ item →
           __getitem__ (__setitem__ self item value) other
           = __getitem__ self other)
  ∧ (loaded.2 = None →
     ∀ k cfg, (k, cfg) ∈ __ITEM_2_CONFIG →
       __getitem__ loaded.1 k
       = match Store.lookup config cfg.1 cfg.2 ≫= float_of_str with
         | Some v => v
         | None => 60.0%float
         end)
  ∧ (loaded.2 = None →
     ∀ k cfg, (k, cfg) ∈ __ITEM_2_CONFIG →
       Store.lookup config cfg.1 cfg.2 = None →
       __getitem__ loaded.1 k = 60.0%float).
Proof.
  simpl.
  assert ((load float_of_str self config).2 = None →
          ∀ k cfg, (k, cfg) ∈ __ITEM_2_CONFIG →
            __getitem__ (load float_of_str self config).1 k
            = match Store.lookup config cfg.1 cfg.2 ≫= float_of_str with
              | Some v => v
              | None => 60.0%float
              end) as Hload.
  { intros Hr k cfg Hin.
    pose proof (proj1 (scan_load_raised_iff float_of_str self config) Hr) as Hw.
    destruct (scan_load_well_formed float_of_str self config Hw) as [_ Hv].
    unfold __getitem__. by rewrite (Hv k cfg Hin). }
  split_and!.
  - intros item. unfold __getitem__, init. simpl. by rewrite lookup_empty.
  - intros item value. unfold __getitem__, __setitem__. simpl. split.
    + by rewrite lookup_insert_eq.
    + intros other Hne. by rewrite lookup_insert_ne.
  - done.
  - intros Hr k cfg Hin Hl. rewrite (Hload Hr k cfg Hin), Hl. done.
Qed.

End scantimes_reading.

Section scanner_more_facts.
Import Py pyinsane2.
Context {world dev : Type} (drv : driver world dev).
Implicit Types (config : registry) (w : world) (exc : exn).

(** X15. The mode and the scan area are best effort.  On a device whose
    option map can be read, and for which setting the mode and maximizing
    the scan area fail with nothing but the driver's error, the Device
    Initializer returns the device and the resolution of the resolution
    step as soon as the device is opened and its source and resolution
    steps complete: no failure of the last two steps reaches the caller. *)
Theorem mode_and_area_best_effort config devid preferred_sources
    w dev_ w1 w2 r w3 :
  (∀ w, ∃ opts w', drv.(options) dev_ w = (Ok opts, w')) →
  (∀ w e w', drv.(set_scanner_opt) dev_ "mode" [Str "Color"] w = (Raise e, w') →
             ∃ msg, e = PyinsaneException msg) →
  (∀ w e w', drv.(maximize_scan_area) dev_ w = (Raise e, w') →
             ∃ msg, e = PyinsaneException msg) →
  drv.(Scanner) devid w = (Ok dev_, w1) →
  set_source drv config dev_ preferred_sources w1 = (Ok tt, w2) →
  set_resolution drv config dev_ w2 = (Ok r, w3) →
  ∃ w5, _get_scanner drv config devid preferred_sources w
        = (Ok (dev_, r), w5).
Proof.
  intros Hopts Hmode Harea H1 H2 H3.
  assert (∃ w4, set_mode drv dev_ w3 = (Ok tt, w4)) as [w4 H4].
  { unfold set_mode. destruct (Hopts w3) as (opts & w' & Ho).
    rewrite (bind_ok _ _ _ _ _ Ho).
    destruct (bool_decide _); [by eexists|].
    unfold try_except_PyinsaneException.
    destruct (set_scanner_opt drv dev_ "mode" [Str "Color"] w')
      as [[[]|e] w''] eqn:Hs; [by eexists|].
    destruct (Hmode _ _ _ Hs) as [msg ->]. by eexists. }
  assert (∃ w5, maximize drv dev_ w4 = (Ok tt, w5)) as [w5 H5].
  { unfold maximize, try_except_PyinsaneException.
    destruct (maximize_scan_area drv dev_ w4) as [[[]|e] w''] eqn:Hs;
      [by eexists|].
    destruct (Harea _ _ _ Hs) as [msg ->]. by eexists. }
  exists w5. by eapply _get_scanner_steps.
Qed.

(** X16. The source step is not best effort.  When the device has a
    source option, the driver is asked for the preferred sources if any
    are given and for the configured source otherwise; an exception of
    that request, the driver's error included, ends the Device Initializer
    and is what it raises. *)
Theorem source_failure_propagates config devid preferred_sources
    w dev_ w1 opts w2 vals e w3 :
  drv.(Scanner) devid w = (Ok dev_, w1) →
  drv.(options) dev_ w1 = (Ok opts, w2) →
  "source" ∈ opts →
  (∃ p ps, preferred_sources = Some (p :: ps) ∧ vals = Str <$> p :: ps)
  ∨ ((preferred_sources = None ∨ preferred_sources = Some [])
     ∧ ∃ s, scanner_source config = Some s ∧ s ≠ "" ∧ vals = [Str s]) →
  drv.(set_scanner_opt) dev_ "source" vals w2 = (Raise e, w3) →
  _get_scanner drv config devid preferred_sources w = (Raise e, w3).
Proof.
  intros H1 Ho Hin Hvals Hset. unfold _get_scanner.
  rewrite (bind_ok _ _ _ _ _ H1).
  apply bind_raise. unfold set_source.
  rewrite (bind_ok _ _ _ _ _ Ho).
  rewrite bool_decide_false by (by intros ?).
  destruct Hvals as [(p & ps & -> & ->)|[Hnone (s & Hs & Hne & ->)]].
  - by rewrite bool_decide_true.
  - rewrite bool_decide_false by (intros [? ?]; by destruct Hnone).
    rewrite bool_decide_true, Hs; [done|]. rewrite Hs. split; congruence.
Qed.

End scanner_more_facts.

Lemma mode_and_area_best_effort_witness :
  ∃ w5, _get_scanner driver_rejects_mode_and_area registry_X
          (Some "X") None tt = (Py.Ok ("X", 300%Z), w5).
Proof.
  apply (mode_and_area_best_effort driver_rejects_mode_and_area
           registry_X (Some "X") None tt "X" tt tt 300 tt).
  - intros w. by exists ["source"; "resolution"; "mode"], w.
  - intros w e w' [= <- _]. by eexists.
  - intros w e w' [= <- _]. by eexists.
  - reflexivity.
  - reflexivity.
  - reflexivity.
Defined.

Lemma source_failure_propagates_witness :
  _get_scanner driver_rejects_source registry_X (Some "X")
    (Some ["ADF"; "Flatbed"]) tt
  = (Py.Raise (Py.PyinsaneException "no such source"), tt).
Proof.
  apply (source_failure_propagates driver_rejects_source registry_X
           (Some "X") (Some ["ADF"; "Flatbed"]) tt "X" tt
           ["source"; "resolution"; "mode"] tt
           [pyinsane2.Str "ADF"; pyinsane2.Str "Flatbed"]).
  - reflexivity.
  - reflexivity.
  - by_compute.
  - left. by exists "ADF", ["Flatbed"].
  - reflexivity.
Defined.
